(** * consumers/consumer_pinkston.py: a shallow embedding and its properties

    The consumer tails a line-delimited JSON file, normalises every line
    into a processed message and inserts it into two SQLite tables.

    Layout of the development:
    - [Py]       the Python values and builtins the program relies on
                 (str, float, int, truthiness, str.strip, str.split);
    - [Json]     json.loads;
    - [Runtime]  exceptions, the world (log, tables, clock) and the
                 state-and-exception monad the program runs in;
    - [TextFile] the text file object returned by open(path, "r");
    - [Consumer] the functions of consumer_pinkston.py;
    - [Views]    names for parts of the program and for the worlds it
                 goes through;
    - [Samples]  sample files, messages and surroundings;
    - [Spec]     notions taken from the specification;
    - the properties, one section per topic. *)

From Stdlib Require Import List ZArith NArith Bool Lia String Ascii.
From Stdlib Require Import Floats.SpecFloat.
Import ListNotations.

Set Implicit Arguments.
#[local] Set Warnings "-register-all".

(* ================================================================== *)
(** * Python values and builtins                                       *)
(* ================================================================== *)

Module Py.

(** A Python [str] is a sequence of Unicode code points. *)
Definition str := list N.

(** Literals: [u "abc"] is the str with the code points of an ASCII
    literal; [js] additionally turns every apostrophe into a double
    quote, so that JSON text can be written readably. *)
Definition u (s : string) : str := map N_of_ascii (list_ascii_of_string s).

Definition js (s : string) : str :=
  map (fun c => if N.eqb c 39 then 34%N else c) (u s).

Definition str_eqb (a b : str) : bool :=
  if list_eq_dec N.eq_dec a b then true else false.

(** ** Whitespace: str.isspace, str.strip, str.split *)

(** Py_UNICODE_ISSPACE: the code points Python treats as whitespace. *)
Definition isspace (c : N) : bool :=
  ((9 <=? c) && (c <=? 13) || (28 <=? c) && (c <=? 32)
   || (c =? 133) || (c =? 160) || (c =? 5760)
   || (8192 <=? c) && (c <=? 8202)
   || (c =? 8232) || (c =? 8233) || (c =? 8239) || (c =? 8287)
   || (c =? 12288))%N.

Fixpoint lstrip (s : str) : str :=
  match s with
  | c :: s' => if isspace c then lstrip s' else s
  | [] => []
  end.

Definition rstrip (s : str) : str := rev (lstrip (rev s)).

(** [s.strip()] *)
Definition strip (s : str) : str := rstrip (lstrip s).

(** [s.split()] with no separator: runs of whitespace separate the
    words, leading and trailing whitespace produce no empty word.
    [cur] is the word being collected, in reverse. *)
Fixpoint split_from (cur : option str) (s : str) : list str :=
  match s with
  | [] => match cur with Some w => [rev w] | None => [] end
  | c :: s' =>
      if isspace c then
        match cur with
        | Some w => rev w :: split_from None s'
        | None => split_from None s'
        end
      else
        split_from (Some (c :: match cur with Some w => w | None => [] end)) s'
  end.

Definition split (s : str) : list str := split_from None s.

(** ** float *)

(** A Python float is an IEEE 754 binary64 number. *)
Definition float := spec_float.

Definition prec : Z := 53.
Definition emax : Z := 1024.

(** The float nearest to [m * 10^e] (ties to even), as the decimal
    literals of Python source and of JSON text are read.  For a negative
    exponent the quotient is computed with 60 extra bits and a sticky
    bit, which makes the final rounding the rounding of the exact
    value. *)
Definition dec_to_float (neg : bool) (m : N) (e : Z) : float :=
  match m with
  | N0 => S754_zero neg
  | Npos p =>
      if (0 <=? e)%Z then
        binary_round prec emax neg (p * Z.to_pos (10 ^ e))%positive 0
      else
        let d := (10 ^ (- e))%Z in
        let s := Z.max 0 (Z.log2 d - Z.log2 (Zpos p) + 60) in
        let n := (Zpos p * 2 ^ s)%Z in
        let q := (n / d)%Z in
        let sticky := if (n mod d =? 0)%Z then 0%Z else 1%Z in
        binary_round prec emax neg (Z.to_pos (2 * q + sticky)) (- s - 1)
  end.

Definition float_zero : float := S754_zero false.

(** [a > b], [a >= b] on floats: false as soon as one side is a NaN. *)
Definition float_gt (a b : float) : bool := SFltb b a.
Definition float_ge (a b : float) : bool := SFleb b a.

(** [float(n)] for an int [n]: None stands for OverflowError. *)
Definition float_of_int (z : Z) : option float :=
  match binary_normalize prec emax z 0 false with
  | S754_infinity _ => None
  | f => Some f
  end.

(** [int(x)] for a float [x]: truncation towards zero; None stands for
    the ValueError (NaN) or OverflowError (infinity) Python raises. *)
Definition int_of_float (x : float) : option Z :=
  match x with
  | S754_zero _ => Some 0%Z
  | S754_finite s m e =>
      let a := if (0 <=? e)%Z then (Zpos m * 2 ^ e)%Z
               else (Zpos m / 2 ^ (- e))%Z in
      Some (if s then (- a)%Z else a)
  | S754_infinity _ | S754_nan => None
  end.

(** ** Values *)

(** The Python values json.loads can return. A dict is kept as its list
    of items in insertion order, with one entry per key. *)
Inductive value : Type :=
| VNone
| VBool (b : bool)
| VInt (z : Z)
| VFloat (x : float)
| VStr (s : str)
| VList (l : list value)
| VDict (d : list (str * value)).

(** Errors a builtin can raise on a value. *)
Inductive builtin_error := TypeError | ValueError | OverflowError | AttributeError.

(** [d[k] = v] on the items of a dict. *)
Fixpoint dict_set (d : list (str * value)) (k : str) (v : value)
  : list (str * value) :=
  match d with
  | [] => [(k, v)]
  | (k', v') :: d' =>
      if str_eqb k' k then (k', v) :: d' else (k', v') :: dict_set d' k v
  end.

Fixpoint dict_find (d : list (str * value)) (k : str) : option value :=
  match d with
  | [] => None
  | (k', v) :: d' => if str_eqb k' k then Some v else dict_find d' k
  end.

(** [dict(pairs)] *)
Definition dict_of_pairs (pairs : list (str * value)) : list (str * value) :=
  fold_left (fun d kv => dict_set d (fst kv) (snd kv)) pairs [].

(** [x.get(k, default)]: only a dict has the method. *)
Definition get (x : value) (k : str) (default : value)
  : builtin_error + value :=
  match x with
  | VDict d => inr (match dict_find d k with Some v => v | None => default end)
  | _ => inl AttributeError
  end.

(** Truth value of an object, as tested by [if x] and [x or y]. *)
Definition truthy (x : value) : bool :=
  match x with
  | VNone => false
  | VBool b => b
  | VInt z => negb (z =? 0)%Z
  | VFloat (S754_zero _) => false
  | VFloat _ => true
  | VStr s => match s with [] => false | _ => true end
  | VList l => match l with [] => false | _ => true end
  | VDict d => match d with [] => false | _ => true end
  end.

(** [a or b] *)
Definition or_ (a b : value) : value := if truthy a then a else b.

(** ** Numeric literals in a str: float(s) and int(s) *)

Definition is_digit (c : N) : bool := ((48 <=? c) && (c <=? 57))%N.

(** The longest prefix made of digits and underscores, and the rest. *)
Fixpoint span_digits (s : str) : str * str :=
  match s with
  | c :: s' =>
      if is_digit c || (c =? 95)%N then
        let (a, b) := span_digits s' in (c :: a, b)
      else ([], s)
  | [] => ([], [])
  end.

(** Underscores are accepted only singly and between two digits.
    [prev] tells whether the previous character was a digit. *)
Fixpoint digits_ok (prev : bool) (s : str) : bool :=
  match s with
  | [] => prev
  | c :: s' => if is_digit c then digits_ok true s' else prev && digits_ok false s'
  end.

Definition digit_values (s : str) : list N :=
  map (fun c => (c - 48)%N) (filter is_digit s).

Definition decimal (ds : list N) : N :=
  fold_left (fun a d => (10 * a + d)%N) ds 0%N.

(** An optional sign: its negativity and the rest. *)
Definition read_sign (s : str) : bool * str :=
  match s with
  | 45%N :: s' => (true, s')
  | 43%N :: s' => (false, s')
  | _ => (false, s)
  end.

Definition lower (c : N) : N :=
  if ((65 <=? c) && (c <=? 90))%N then (c + 32)%N else c.

(** [float(s)] for a str: surrounding whitespace, a sign, then
    inf, infinity or nan in any case, or a decimal literal with an
    optional fraction and exponent.  Digits are the ASCII ones. *)
Definition float_of_str (s : str) : option float :=
  let (neg, body) := read_sign (strip s) in
  let word := map lower body in
  if str_eqb word (u "inf") || str_eqb word (u "infinity")
  then Some (S754_infinity neg)
  else if str_eqb word (u "nan") then Some S754_nan
  else
    let (ip, r1) := span_digits body in
    let (fp, r2) :=
      match r1 with
      | 46%N :: r => span_digits r
      | _ => ([], r1)
      end in
    let mant_ok :=
      match ip, fp with
      | [], [] => false
      | [], _ => digits_ok false fp
      | _, [] => digits_ok false ip
      | _, _ => digits_ok false ip && digits_ok false fp
      end in
    let exp :=
      match r2 with
      | [] => Some 0%Z
      | c :: r =>
          if (lower c =? 101)%N then
            let (eneg, r') := read_sign r in
            let (ep, r3) := span_digits r' in
            match r3 with
            | [] =>
                if digits_ok false ep then
                  let e := Z.of_N (decimal (digit_values ep)) in
                  Some (if eneg then (- e)%Z else e)
                else None
            | _ => None
            end
          else None
      end in
    match mant_ok, exp with
    | true, Some e =>
        Some (dec_to_float neg
                (decimal (digit_values ip ++ digit_values fp))
                (e - Z.of_nat (List.length (digit_values fp))))
    | _, _ => None
    end.

(** [int(s)] for a str, base ten. *)
Definition int_of_str (s : str) : option Z :=
  let (neg, body) := read_sign (strip s) in
  let (ds, r) := span_digits body in
  match r with
  | [] =>
      if digits_ok false ds then
        let n := Z.of_N (decimal (digit_values ds)) in
        Some (if neg then (- n)%Z else n)
      else None
  | _ => None
  end.

(** ** float(x) and int(x) on values *)

Definition py_float (x : value) : builtin_error + float :=
  match x with
  | VFloat f => inr f
  | VInt z => match float_of_int z with Some f => inr f | None => inl OverflowError end
  | VBool b => inr (if b then dec_to_float false 1 0 else float_zero)
  | VStr s => match float_of_str s with Some f => inr f | None => inl ValueError end
  | VNone | VList _ | VDict _ => inl TypeError
  end.

Definition py_int (x : value) : builtin_error + Z :=
  match x with
  | VInt z => inr z
  | VBool b => inr (if b then 1%Z else 0%Z)
  | VFloat S754_nan => inl ValueError
  | VFloat f => match int_of_float f with Some z => inr z | None => inl OverflowError end
  | VStr s => match int_of_str s with Some z => inr z | None => inl ValueError end
  | VNone | VList _ | VDict _ => inl TypeError
  end.

(** [x.split()]: only a str has the method here. *)
Definition py_split (x : value) : builtin_error + list str :=
  match x with
  | VStr s => inr (split s)
  | _ => inl AttributeError
  end.

End Py.

(* ================================================================== *)
(** * json.loads                                                       *)
(* ================================================================== *)

Module Json.
Import Py.

(** Outcome of scanning a prefix of the text: a value and the text left,
    a syntax error, or nesting beyond what the scanner is given. *)
Inductive scan (A : Type) : Type :=
| Parsed (a : A) (rest : str)
| Invalid
| TooDeep.
Arguments Invalid {A}.
Arguments TooDeep {A}.

(** WHITESPACE of json.decoder: space, tab, line feed, carriage return. *)
Definition is_ws (c : N) : bool :=
  ((c =? 32) || (c =? 9) || (c =? 10) || (c =? 13))%N.

Fixpoint skip_ws (s : str) : str :=
  match s with
  | c :: s' => if is_ws c then skip_ws s' else s
  | [] => []
  end.

Definition hex_val (c : N) : option N :=
  if is_digit c then Some (c - 48)%N
  else if ((97 <=? c) && (c <=? 102))%N then Some (c - 87)%N
  else if ((65 <=? c) && (c <=? 70))%N then Some (c - 55)%N
  else None.

Definition hex4 (a b c d : N) : option N :=
  match hex_val a, hex_val b, hex_val c, hex_val d with
  | Some x, Some y, Some z, Some t => Some (((x * 16 + y) * 16 + z) * 16 + t)%N
  | _, _, _, _ => None
  end.

(** BACKSLASH: the one-character escapes. *)
Definition escape (c : N) : option N :=
  if (c =? 34)%N then Some 34%N
  else if (c =? 92)%N then Some 92%N
  else if (c =? 47)%N then Some 47%N
  else if (c =? 98)%N then Some 8%N
  else if (c =? 102)%N then Some 12%N
  else if (c =? 110)%N then Some 10%N
  else if (c =? 114)%N then Some 13%N
  else if (c =? 116)%N then Some 9%N
  else None.

(** The escape [\uXXXX] at the head of [s], if there is one. *)
Definition u_escape (s : str) : option (N * str) :=
  match s with
  | bs :: uc :: a :: b :: c :: d :: rest =>
      if ((bs =? 92) && (uc =? 117))%N then
        match hex4 a b c d with
        | Some n => Some (n, rest)
        | None => None
        end
      else None
  | _ => None
  end.

(** scanstring (strict): the text after the opening quote, up to the
    closing quote.  [acc] is the decoded string so far, in reverse. *)
Fixpoint scanstring (acc : str) (s : str) : option (str * str) :=
  match s with
  | [] => None
  | c :: rest =>
      if (c =? 34)%N then Some (rev acc, rest)
      else if (c =? 92)%N then
        match rest with
        | [] => None
        | e :: rest1 =>
            if (e =? 117)%N then
              match rest1 with
              | a :: b :: c' :: d :: rest2 =>
                  match hex4 a b c' d with
                  | None => None
                  | Some uni =>
                      if ((55296 <=? uni) && (uni <=? 56319))%N then
                        match rest2 with
                        | bs :: uc :: a2 :: b2 :: c2 :: d2 :: rest3 =>
                            match u_escape rest2 with
                            | Some (uni2, _) =>
                                if ((56320 <=? uni2) && (uni2 <=? 57343))%N then
                                  scanstring
                                    ((65536 + (uni - 55296) * 1024
                                      + (uni2 - 56320))%N :: acc) rest3
                                else scanstring (uni :: acc) rest2
                            | None => scanstring (uni :: acc) rest2
                            end
                        | _ => scanstring (uni :: acc) rest2
                        end
                      else scanstring (uni :: acc) rest2
                  end
              | _ => None
              end
            else
              match escape e with
              | Some x => scanstring (x :: acc) rest1
              | None => None
              end
        end
      else if (c <? 32)%N then None
      else scanstring (c :: acc) rest
  end.

Fixpoint span (p : N -> bool) (s : str) : str * str :=
  match s with
  | c :: s' => if p c then let (a, b) := span p s' in (c :: a, b) else ([], s)
  | [] => ([], [])
  end.

(** NUMBER_RE at the head of [s]: an optional minus sign; an integer
    part that is a single 0 or starts with a digit from 1 to 9; an
    optional fraction, a dot and at least one digit; an optional
    exponent, e or E, an optional sign and at least one digit.  A
    fraction or an exponent makes the number a float, otherwise it is an
    int.  There is no limit on the number of digits. *)
Definition scan_minus (s : str) : bool * str :=
  match s with
  | c :: r => if (c =? 45)%N then (true, r) else (false, s)
  | [] => (false, s)
  end.

Definition scan_int (s : str) : option (str * str) :=
  match span is_digit s with
  | ([], _) => None
  | (d0 :: more, after) =>
      Some (if (d0 =? 48)%N then ([d0], more ++ after) else (d0 :: more, after))
  end.

Definition scan_frac (s : str) : str * str :=
  match s with
  | c :: r =>
      if (c =? 46)%N then
        match span is_digit r with
        | ([], _) => ([], s)
        | (f, r') => (f, r')
        end
      else ([], s)
  | [] => ([], s)
  end.

Definition scan_exp_sign (s : str) : bool * str :=
  match s with
  | sg :: r =>
      if (sg =? 45)%N then (true, r)
      else if (sg =? 43)%N then (false, r)
      else (false, s)
  | [] => (false, s)
  end.

Definition scan_exp (s : str) : option Z * str :=
  match s with
  | c :: r =>
      if ((c =? 101) || (c =? 69))%N then
        let (eneg, r') := scan_exp_sign r in
        match span is_digit r' with
        | ([], _) => (None, s)
        | (ed, r'') =>
            let e := Z.of_N (decimal (digit_values ed)) in
            (Some (if eneg then (- e)%Z else e), r'')
        end
      else (None, s)
  | [] => (None, s)
  end.

Definition scan_number (s : str) : option (value * str) :=
  let (neg, s1) := scan_minus s in
  match scan_int s1 with
  | None => None
  | Some (ip, r1) =>
      let (fp, r2) := scan_frac r1 in
      let (ex, r3) := scan_exp r2 in
      match fp, ex with
      | [], None =>
          let n := Z.of_N (decimal (digit_values ip)) in
          Some (VInt (if neg then (- n)%Z else n), r3)
      | _, _ =>
          let e := match ex with Some e => e | None => 0%Z end in
          Some (VFloat (dec_to_float neg
                          (decimal (digit_values ip ++ digit_values fp))
                          (e - Z.of_nat (List.length fp))), r3)
      end
  end.

(** [s] without the prefix [p], when it starts with it. *)
Fixpoint strip_prefix (p s : str) : option str :=
  match p, s with
  | [], _ => Some s
  | a :: p', b :: s' => if (a =? b)%N then strip_prefix p' s' else None
  | _ :: _, [] => None
  end.

(** The constants of the scanner, tried in its order around numbers. *)
Definition scan_constant (s : str) : option (value * str) :=
  match strip_prefix (u "null") s with
  | Some r => Some (VNone, r)
  | None =>
  match strip_prefix (u "true") s with
  | Some r => Some (VBool true, r)
  | None =>
  match strip_prefix (u "false") s with
  | Some r => Some (VBool false, r)
  | None =>
  match scan_number s with
  | Some vr => Some vr
  | None =>
  match strip_prefix (u "NaN") s with
  | Some r => Some (VFloat S754_nan, r)
  | None =>
  match strip_prefix (u "Infinity") s with
  | Some r => Some (VFloat (S754_infinity false), r)
  | None =>
  match strip_prefix (u "-Infinity") s with
  | Some r => Some (VFloat (S754_infinity true), r)
  | None => None
  end end end end end end end.

(** scan_once, JSONArray and JSONObject.  [scan_items] starts at an
    element of an array, [scan_members] just after the opening quote of
    a key; both carry what was read so far, in reverse. *)
Fixpoint scan_once (fuel : nat) (s : str) : scan value :=
  match fuel with
  | O => TooDeep
  | S fuel' =>
      match s with
      | [] => Invalid
      | c :: s' =>
          if (c =? 34)%N then
            match scanstring [] s' with
            | Some (x, rest) => Parsed (VStr x) rest
            | None => Invalid
            end
          else if (c =? 123)%N then
            match skip_ws s' with
            | c1 :: rest =>
                if (c1 =? 125)%N then Parsed (VDict []) rest
                else if (c1 =? 34)%N then scan_members fuel' [] rest
                else Invalid
            | [] => Invalid
            end
          else if (c =? 91)%N then
            match skip_ws s' with
            | c1 :: rest =>
                if (c1 =? 93)%N then Parsed (VList []) rest
                else scan_items fuel' [] (c1 :: rest)
            | [] => Invalid
            end
          else
            match scan_constant s with
            | Some (v, rest) => Parsed v rest
            | None => Invalid
            end
      end
  end

with scan_items (fuel : nat) (acc : list value) (s : str) : scan value :=
  match fuel with
  | O => TooDeep
  | S fuel' =>
      match scan_once fuel' s with
      | Parsed v rest =>
          match skip_ws rest with
          | c :: r =>
              if (c =? 93)%N then Parsed (VList (rev (v :: acc))) r
              else if (c =? 44)%N then scan_items fuel' (v :: acc) (skip_ws r)
              else Invalid
          | [] => Invalid
          end
      | Invalid => Invalid
      | TooDeep => TooDeep
      end
  end

with scan_members (fuel : nat) (acc : list (str * value)) (s : str) : scan value :=
  match fuel with
  | O => TooDeep
  | S fuel' =>
      match scanstring [] s with
      | None => Invalid
      | Some (key, r) =>
          match skip_ws r with
          | c :: r1 =>
              if (c =? 58)%N then
                match scan_once fuel' (skip_ws r1) with
                | Parsed v r2 =>
                    match skip_ws r2 with
                    | c2 :: r3 =>
                        if (c2 =? 125)%N then
                          Parsed (VDict (dict_of_pairs (rev ((key, v) :: acc)))) r3
                        else if (c2 =? 44)%N then
                          match skip_ws r3 with
                          | c3 :: r4 =>
                              if (c3 =? 34)%N
                              then scan_members fuel' ((key, v) :: acc) r4
                              else Invalid
                          | [] => Invalid
                          end
                        else Invalid
                    | [] => Invalid
                    end
                | Invalid => Invalid
                | TooDeep => TooDeep
                end
              else Invalid
          | [] => Invalid
          end
      end
  end.

Inductive error := JSONDecodeError | RecursionError.

(** [json.loads(s)]: one value surrounded by optional whitespace.  The
    scanner is given two steps per character, which is enough for every
    text (see [loads_error]); the depth of nesting is not bounded. *)
Definition loads (s : str) : error + value :=
  match scan_once (2 * List.length s + 2) (skip_ws s) with
  | Parsed v rest =>
      match skip_ws rest with
      | [] => inr v
      | _ => inl JSONDecodeError
      end
  | Invalid => inl JSONDecodeError
  | TooDeep => inl RecursionError
  end.

End Json.

(* ================================================================== *)
(** * Exceptions, the world and the monad of the program               *)
(* ================================================================== *)

Module Runtime.
Import Py.

(** What can be raised.  [SqliteError] stands for the exceptions of the
    sqlite3 module, [ConfigError] for whatever the configuration module
    raises, [OSError] for the I/O errors other than a missing file. *)
Inductive exn : Type :=
| Builtin (e : builtin_error)
| JsonError (e : Json.error)
| FileNotFoundError
| OSError
| SqliteError
| ConfigError
| KeyboardInterrupt
| SystemExit (code : Z).

(** [except Exception] catches everything but the two exits. *)
Definition is_Exception (e : exn) : bool :=
  match e with
  | KeyboardInterrupt | SystemExit _ => false
  | _ => true
  end.

(** ** The log *)

Inductive level := INFO | WARNING | ERROR.

(** A log record: its level, the constant part of the message, and the
    integer formatted into it when there is one (other formatted values
    are not kept). *)
Record entry : Type := Entry { lvl : level; text : string; arg : option Z }.

(** ** Processed messages *)

(** The dict built by process_message, one field per key.  The field
    [processed_at] is the reading of the clock; its ISO text is not
    modelled. *)
Record processed : Type := Processed {
  message : value;
  author : value;
  timestamp : value;
  category : value;
  sentiment : float;
  sentiment_label : str;
  keyword_mentioned : value;
  message_length : Z;
  word_count : Z;
  processed_at : Z
}.

(** ** The world *)

(** What an open() of the live data file finds. *)
Inductive file_state : Type :=
| Absent
| Unreadable
| Present (data : str).

Record config : Type := Config {
  interval_secs : Z;
  live_data_path : str;
  sqlite_path : str
}.

(** The surroundings of one run, which the program does not control:
    what the k-th open() of the live data file finds, whether the k-th
    database operation fails, what the configuration module returns
    (None: it raises), and whether deleting the database file fails. *)
Record env : Type := Env {
  source : nat -> file_state;
  db_fails : nat -> bool;
  settings : option config;
  unlink_fails : bool
}.

(** The state the program acts on: the log, the database file with the
    rows of its two tables (an insight row carries its AUTOINCREMENT
    id), the clock in seconds, the numbers of open() calls and of
    database operations made so far, and the variable [last_position] of
    consume_messages_from_file. *)
Record world : Type := World {
  log : list entry;
  db_exists : bool;
  primary : list processed;
  insights : list (Z * processed);
  clock : Z;
  opens : nat;
  db_ops : nat;
  last_position : Z
}.

Definition set_log (l : list entry) (w : world) : world :=
  World l (db_exists w) (primary w) (insights w) (clock w) (opens w)
        (db_ops w) (last_position w).
Definition set_db_exists (b : bool) (w : world) : world :=
  World (log w) b (primary w) (insights w) (clock w) (opens w)
        (db_ops w) (last_position w).
Definition set_primary (r : list processed) (w : world) : world :=
  World (log w) (db_exists w) r (insights w) (clock w) (opens w)
        (db_ops w) (last_position w).
Definition set_insights (r : list (Z * processed)) (w : world) : world :=
  World (log w) (db_exists w) (primary w) r (clock w) (opens w)
        (db_ops w) (last_position w).
Definition set_clock (t : Z) (w : world) : world :=
  World (log w) (db_exists w) (primary w) (insights w) t (opens w)
        (db_ops w) (last_position w).
Definition set_opens (n : nat) (w : world) : world :=
  World (log w) (db_exists w) (primary w) (insights w) (clock w) n
        (db_ops w) (last_position w).
Definition set_db_ops (n : nat) (w : world) : world :=
  World (log w) (db_exists w) (primary w) (insights w) (clock w) (opens w)
        n (last_position w).
Definition set_last_position (p : Z) (w : world) : world :=
  World (log w) (db_exists w) (primary w) (insights w) (clock w) (opens w)
        (db_ops w) p.

(** ** The monad *)

(** A computation ends with a value, with an exception, or is still
    inside the polling loop when the cycles granted to the model are
    used up ([Running]); nothing catches the latter. *)
Inductive result (A : Type) : Type :=
| Ok (a : A)
| Raise (e : exn)
| Running.
Arguments Raise {A}.
Arguments Running {A}.

Definition M (A : Type) : Type := env -> world -> result A * world.

Definition ret {A} (a : A) : M A := fun _ w => (Ok a, w).

Definition bind {A B} (c : M A) (k : A -> M B) : M B :=
  fun e w =>
    match c e w with
    | (Ok a, w') => k a e w'
    | (Raise x, w') => (Raise x, w')
    | (Running, w') => (Running, w')
    end.

Definition raise {A} (x : exn) : M A := fun _ w => (Raise x, w).

Definition running {A} : M A := fun _ w => (Running, w).

(** [try: body / except Exception as e: handler e] *)
Definition try_except {A} (body : M A) (handler : exn -> M A) : M A :=
  fun e w =>
    match body e w with
    | (Raise x, w') => if is_Exception x then handler x e w' else (Raise x, w')
    | r => r
    end.

(** [try: body / except E: first / except Exception as e: handler e],
    where [is_E] recognises the exceptions of class E. *)
Definition try_except_2 {A} (body : M A) (is_E : exn -> bool)
  (first : M A) (handler : exn -> M A) : M A :=
  fun e w =>
    match body e w with
    | (Raise x, w') =>
        if is_E x then first e w'
        else if is_Exception x then handler x e w'
        else (Raise x, w')
    | r => r
    end.

Definition is_FileNotFoundError (x : exn) : bool :=
  match x with FileNotFoundError => true | _ => false end.

Definition is_KeyboardInterrupt (x : exn) : bool :=
  match x with KeyboardInterrupt => true | _ => false end.

(** [try: body / finally: final] *)
Definition try_finally {A} (body : M A) (final : M unit) : M A :=
  fun e w =>
    match body e w with
    | (Running, w') => (Running, w')
    | (r, w') =>
        match final e w' with
        | (Ok _, w'') => (r, w'')
        | (Raise x, w'') => (Raise x, w'')
        | (Running, w'') => (Running, w'')
        end
    end.

Definition modify (f : world -> world) : M unit := fun _ w => (Ok tt, f w).
Definition gets {A} (f : world -> A) : M A := fun _ w => (Ok (f w), w).
Definition asks {A} (f : env -> A) : M A := fun e w => (Ok (f e), w).

(** The result of a builtin, raised when it is an error. *)
Definition builtin {A} (r : builtin_error + A) : M A :=
  match r with
  | inr a => ret a
  | inl e => raise (Builtin e)
  end.

Declare Scope prog_scope.
Delimit Scope prog_scope with prog.
Notation "x <- c1 ;; c2" := (bind c1 (fun x => c2))
  (at level 61, c1 at next level, right associativity) : prog_scope.
Notation "c1 ;; c2" := (bind c1 (fun _ => c2))
  (at level 61, right associativity) : prog_scope.
Open Scope prog_scope.

(** [logger.info(...)], [logger.warning(...)], [logger.error(...)] *)
Definition logger (l : level) (t : string) (a : option Z) : M unit :=
  modify (fun w => set_log (log w ++ [Entry l t a]) w).

(** [time.sleep(secs)] *)
Definition sleep (secs : Z) : M unit :=
  if (secs <? 0)%Z then raise (Builtin ValueError)
  else modify (fun w => set_clock (clock w + secs) w).

(** [sys.exit(code)] *)
Definition sys_exit {A} (code : Z) : M A := raise (SystemExit code).

(** [datetime.utcnow()], as the reading of the clock. *)
Definition utcnow : M Z := gets clock.

(** Whether the database operation now starting fails, from [db_fails]. *)
Definition db_op_fails : M bool :=
  fun e w => (Ok (db_fails e (db_ops w)), set_db_ops (S (db_ops w)) w).

(** The exit status of the process for the outcome of its main
    function: 0 after a normal return, the code of a [SystemExit], 1
    for an exception nobody caught, none while it is still running. *)
Definition exit_status {A} (r : result A) : option Z :=
  match r with
  | Ok _ => Some 0%Z
  | Raise (SystemExit c) => Some c
  | Raise _ => Some 1%Z
  | Running => None
  end.

End Runtime.

(* ================================================================== *)
(** * The text file object                                             *)
(* ================================================================== *)

Module TextFile.
Import Py Runtime.

(** A file opened with open(path, "r"): its decoded text, the position
    in it, and the flag of io.TextIOWrapper that allows tell().  A
    character of the text is taken to be one byte of the file, which is
    the case of ASCII content. *)
Record file : Type := File { data : str; pos : nat; telling : bool }.

(** [open(path, "r")]: the world has one live data file, whatever the
    path. *)
Definition open_ (path : str) : M file :=
  fun e w =>
    let w' := set_opens (S (opens w)) w in
    match source e (opens w) with
    | Absent => (Raise FileNotFoundError, w')
    | Unreadable => (Raise OSError, w')
    | Present d => (Ok (File d 0 true), w')
    end.

(** [file.seek(cookie)] *)
Definition seek (f : file) (cookie : Z) : M file :=
  if (cookie <? 0)%Z then raise (Builtin ValueError)
  else ret (File (data f) (Z.to_nat cookie) true).

(** [file.tell()].  io.TextIOWrapper refuses it while the file is being
    iterated over: __next__ clears the flag that allows tell(), which
    then raises OSError (telling position disabled by next() call); the
    flag comes back when the iteration reaches the end of the file. *)
Definition tell (f : file) : M Z :=
  if telling f then ret (Z.of_nat (pos f)) else raise OSError.

(** The lines of a text, as readline() returns them one after the
    other in universal newlines mode: a line ends after a line feed, a
    carriage return or the two in sequence, each given back as one line
    feed; what follows the last terminator is a last line without one.
    Every line comes with the number of characters it took from the
    text.  [cur] is the current line so far, in reverse, and [n] its
    number of characters. *)
Fixpoint read_lines (cur : str) (n : nat) (s : str) : list (str * nat) :=
  match s with
  | [] => match cur with [] => [] | _ => [(rev cur, n)] end
  | c :: s' =>
      if (c =? 10)%N then (rev (10%N :: cur), S n) :: read_lines [] 0 s'
      else if (c =? 13)%N then
        match s' with
        | c' :: s'' =>
            if (c' =? 10)%N
            then (rev (10%N :: cur), S (S n)) :: read_lines [] 0 s''
            else (rev (10%N :: cur), S n) :: read_lines [] 0 s'
        | [] => [(rev (10%N :: cur), S n)]
        end
      else read_lines (c :: cur) (S n) s'
  end.

(** The lines [for line in file] goes through, from the position of the
    file. *)
Definition lines (f : file) : list (str * nat) :=
  read_lines [] 0 (skipn (pos f) (data f)).

(** The file after [next(file)] has returned a line of [k] characters:
    the position has moved and tell() is disabled. *)
Definition after_next (f : file) (k : nat) : file :=
  File (data f) (pos f + k) false.

End TextFile.

(* ================================================================== *)
(** * consumers/consumer_pinkston.py                                   *)
(* ================================================================== *)

Module Consumer.
Import Py Runtime TextFile.
Open Scope string_scope.

(** The float literals of the source. *)
Definition lit_0_6 : float := dec_to_float false 6 (-1).
Definition lit_0_4 : float := dec_to_float false 4 (-1).
Definition lit_0_0 : float := dec_to_float false 0 (-1).

(** [len(x)] *)
Definition py_len (x : value) : builtin_error + Z :=
  match x with
  | VStr s => inr (Z.of_nat (List.length s))
  | VList l => inr (Z.of_nat (List.length l))
  | VDict d => inr (Z.of_nat (List.length d))
  | _ => inl TypeError
  end.

(** The sentiment labeling of process_message. *)
Definition label_of (sentiment : float) : str :=
  if float_gt sentiment lit_0_6 then u "high"
  else if float_ge sentiment lit_0_4 then u "medium"
  else u "low".

(** ** process_message *)

Definition process_message (raw_message : value) : M (option processed) :=
  try_except
    (m <- builtin (get raw_message (u "message") (VStr [])) ;;
     let text := or_ m (VStr []) in
     s <- builtin (get raw_message (u "sentiment") (VFloat lit_0_0)) ;;
     sentiment <- builtin (py_float s) ;;
     words <- builtin (py_split text) ;;
     let word_count := Z.of_nat (List.length words) in
     let label := label_of sentiment in
     author <- builtin (get raw_message (u "author") VNone) ;;
     timestamp <- builtin (get raw_message (u "timestamp") VNone) ;;
     category <- builtin (get raw_message (u "category") VNone) ;;
     keyword_mentioned <- builtin (get raw_message (u "keyword_mentioned") VNone) ;;
     n <- builtin (py_len text) ;;
     ml <- builtin (get raw_message (u "message_length") (VInt n)) ;;
     message_length <- builtin (py_int ml) ;;
     now <- utcnow ;;
     let processed :=
       Processed text author timestamp category sentiment label
                 keyword_mentioned message_length word_count now in
     logger INFO "Processed message: " None ;;
     ret (Some processed))
    (fun e =>
     logger ERROR "Error processing message: " None ;;
     ret None).

(** ** The two stores *)

(** Modelled from the spec: init_db of consumers/sqlite_consumer_case.py,
    the initialize(path) of the primary store, is not among the sources.
    It is one database operation that creates the database file and
    raises when it fails. *)
Definition init_db (db_path : str) : M unit :=
  failed <- db_op_fails ;;
  if failed : bool then raise SqliteError
  else modify (set_db_exists true).

(** Modelled from the spec: insert_message of
    consumers/sqlite_consumer_case.py, the insert(record, path) of the
    primary store, is not among the sources.  It is one database
    operation that appends one row to the primary table; a failure is
    logged and not raised. *)
Definition insert_message (message : processed) (db_path : str) : M unit :=
  failed <- db_op_fails ;;
  if failed : bool then logger ERROR "primary store: insert failed" None
  else modify (fun w => set_primary (primary w ++ [message]) w).

(** Statement of init_insights_db: CREATE TABLE IF NOT EXISTS
    insights_pinkston, in a connection that creates the file. *)
Definition create_insights_table : M unit :=
  failed <- db_op_fails ;;
  if failed : bool then raise SqliteError
  else modify (set_db_exists true).

Definition init_insights_db (db_path : str) : M unit :=
  try_except
    (create_insights_table ;;
     logger INFO "Initialized insights DB/table at " None)
    (fun e =>
     logger ERROR "ERROR: Failed to initialize insights DB: " None ;;
     raise e).

(** What sqlite3 refuses to bind as a parameter: a list or a dict, an
    int outside 64 bits, a str with a surrogate code point. *)
Definition is_surrogate (c : N) : bool := ((55296 <=? c) && (c <=? 57343))%N.

Definition bind_error (x : value) : option exn :=
  match x with
  | VNone | VBool _ | VFloat _ => None
  | VInt z =>
      if ((- 2 ^ 63 <=? z) && (z <? 2 ^ 63))%Z then None
      else Some (Builtin OverflowError)
  | VStr s => if existsb is_surrogate s then Some (Builtin ValueError) else None
  | VList _ | VDict _ => Some SqliteError
  end.

(** The parameters of the INSERT of insert_insight, in their order.
    The last one, the ISO text of [processed_at], is an ASCII str
    whatever the time, and is given by an empty str. *)
Definition insight_params (insight : processed) : list value :=
  [ message insight; author insight; timestamp insight; category insight;
    VFloat (sentiment insight); VStr (sentiment_label insight);
    keyword_mentioned insight; VInt (message_length insight);
    VInt (word_count insight); VStr [] ].

Fixpoint first_error (l : list value) : option exn :=
  match l with
  | [] => None
  | x :: l' =>
      match bind_error x with
      | Some e => Some e
      | None => first_error l'
      end
  end.

(** Statement of insert_insight: INSERT INTO insights_pinkston, one
    database operation; the new row takes the next id. *)
Definition insert_insight_row (insight : processed) : M unit :=
  failed <- db_op_fails ;;
  if failed : bool then raise SqliteError
  else
    match first_error (insight_params insight) with
    | Some e => raise e
    | None =>
        modify (fun w =>
          set_insights
            (insights w ++ [(Z.of_nat (S (List.length (insights w))), insight)])
            (set_db_exists true w))
    end.

Definition insert_insight (insight : processed) (db_path : str) : M unit :=
  try_except
    (insert_insight_row insight ;;
     logger INFO "Inserted one insight row into insights_pinkston." None)
    (fun e =>
     logger ERROR "ERROR: Failed to insert insight into DB: " None).

(** ** consume_messages_from_file *)

Definition json_loads (s : str) : M value :=
  match Json.loads s with
  | inr v => ret v
  | inl e => raise (JsonError e)
  end.

Definition is_empty (s : str) : bool :=
  match s with [] => true | _ => false end.

(** The body of [for line in file], over the lines left to read. *)
Fixpoint for_line_in (f : file) (ls : list (str * nat)) (sql_path : str)
  : M unit :=
  match ls with
  | [] => ret tt
  | (line, k) :: rest =>
      let f := after_next f k in
      if is_empty (strip line) then for_line_in f rest sql_path
      else
        raw <- json_loads (strip line) ;;
        processed <- process_message raw ;;
        match processed with
        | Some p => insert_message p sql_path ;; insert_insight p sql_path
        | None => ret tt
        end ;;
        p <- tell f ;;
        modify (set_last_position p) ;;
        for_line_in f rest sql_path
  end.

(** One turn of [while True]: the try statement with its two handlers. *)
Definition cycle (live_data_path sql_path : str) (interval_secs : Z)
  : M unit :=
  try_except_2
    (p <- gets last_position ;;
     logger INFO "3. Read from live data file at position " (Some p) ;;
     file <- open_ live_data_path ;;
     p <- gets last_position ;;
     file <- seek file p ;;
     for_line_in file (lines file) sql_path ;;
     sleep interval_secs)
    is_FileNotFoundError
    (logger ERROR "ERROR: Live data file not found at " None ;;
     sleep interval_secs)
    (fun e =>
     logger ERROR "ERROR: Error reading from live data file: " None ;;
     sys_exit 11).

(** [while True], for at most [cycles] turns. *)
Fixpoint while_true (cycles : nat) (body : M unit) : M unit :=
  match cycles with
  | O => running
  | S n => body ;; while_true n body
  end.

Definition consume_messages_from_file (cycles : nat)
  (live_data_path sql_path : str) (interval_secs : Z) (last_position : Z)
  : M unit :=
  modify (set_last_position last_position) ;;
  logger INFO "Called consume_messages_from_file() with:" None ;;
  logger INFO "   live_data_path=" None ;;
  logger INFO "   sql_path=" None ;;
  logger INFO "   interval_secs=" (Some interval_secs) ;;
  p <- gets Runtime.last_position ;;
  logger INFO "   last_position=" (Some p) ;;
  logger INFO "1. Initialize the database." None ;;
  init_db sql_path ;;
  init_insights_db sql_path ;;
  logger INFO "2. Set the last position to 0 to start at the beginning of the file." None ;;
  modify (set_last_position 0) ;;
  while_true cycles (cycle live_data_path sql_path interval_secs).

(** ** main *)

(** The three calls into utils.utils_config. *)
Definition read_config : M config :=
  c <- asks settings ;;
  match c with
  | Some cfg => ret cfg
  | None => raise ConfigError
  end.

(** [sqlite_path.unlink()]: the file goes, and its tables with it. *)
Definition unlink (path : str) : M unit :=
  fails <- asks unlink_fails ;;
  if fails : bool then raise OSError
  else modify (fun w => set_insights [] (set_primary [] (set_db_exists false w))).

Definition main (cycles : nat) : M unit :=
  logger INFO "Starting Consumer to run continuously." None ;;
  logger INFO "Things can fail or get interrupted, so use a try block." None ;;
  logger INFO "Moved .env variables into a utils config module." None ;;
  logger INFO "STEP 1. Read environment variables using new config functions." None ;;
  cfg <- try_except
           (c <- read_config ;;
            logger INFO "SUCCESS: Read environment variables." None ;;
            ret c)
           (fun e =>
            logger ERROR "ERROR: Failed to read environment variables: " None ;;
            sys_exit 1) ;;
  logger INFO "STEP 2. Delete any prior database file for a fresh start." None ;;
  present <- gets db_exists ;;
  (if present : bool then
     try_except
       (unlink (sqlite_path cfg) ;;
        logger INFO "SUCCESS: Deleted database file." None)
       (fun e =>
        logger ERROR "ERROR: Failed to delete DB file: " None ;;
        sys_exit 2)
   else ret tt) ;;
  logger INFO "STEP 3. Initialize a new database with an empty table." None ;;
  try_except
    (init_db (sqlite_path cfg) ;;
     init_insights_db (sqlite_path cfg))
    (fun e =>
     logger ERROR "ERROR: Failed to create db table: " None ;;
     sys_exit 3) ;;
  logger INFO "STEP 4. Begin consuming and storing messages." None ;;
  try_finally
    (try_except_2
       (consume_messages_from_file cycles (live_data_path cfg)
          (sqlite_path cfg) (interval_secs cfg) 0)
       is_KeyboardInterrupt
       (logger WARNING "Consumer interrupted by user." None)
       (fun e => logger ERROR "ERROR: Unexpected error: " None))
    (logger INFO "TRY/FINALLY: Consumer shutting down." None).

(** The process: main run in a world, its outcome and the world left. *)
Definition run (cycles : nat) (e : env) (w : world) : result unit * world :=
  main cycles e w.

End Consumer.

(* ================================================================== *)
(** * Derived forms of the program                                     *)
(* ================================================================== *)

(** The functions below are not in the source: they name parts of it,
    and the properties relate each of them to the function it comes
    from before using it. *)
Module Views.
Import Py Runtime TextFile Consumer.
Open Scope string_scope.

Definition and_then {A B} (r : builtin_error + A) (k : A -> builtin_error + B)
  : builtin_error + B :=
  match r with
  | inr a => k a
  | inl e => inl e
  end.

(** The try block of process_message without its log record: the dict
    it builds at time [now], or the error of the first builtin that
    fails. *)
Definition normalize (raw_message : value) (now : Z)
  : builtin_error + processed :=
  and_then (get raw_message (u "message") (VStr [])) (fun m =>
  let text := or_ m (VStr []) in
  and_then (get raw_message (u "sentiment") (VFloat lit_0_0)) (fun s =>
  and_then (py_float s) (fun sentiment =>
  and_then (py_split text) (fun words =>
  and_then (get raw_message (u "author") VNone) (fun author =>
  and_then (get raw_message (u "timestamp") VNone) (fun timestamp =>
  and_then (get raw_message (u "category") VNone) (fun category =>
  and_then (get raw_message (u "keyword_mentioned") VNone) (fun keyword_mentioned =>
  and_then (py_len text) (fun n =>
  and_then (get raw_message (u "message_length") (VInt n)) (fun ml =>
  and_then (py_int ml) (fun message_length =>
  inr (Processed text author timestamp category sentiment
         (label_of sentiment) keyword_mentioned message_length
         (Z.of_nat (List.length words)) now)))))))))))).

(** The world with one more log record. *)
Definition logged (l : level) (t : string) (a : option Z) (w : world) : world :=
  set_log (log w ++ [Entry l t a]) w.

(** The world after one more database operation. *)
Definition db_op (w : world) : world := set_db_ops (S (db_ops w)) w.

(** The two writes of the read loop for one processed message. *)
Definition write_both (p : processed) (sql_path : str) : M unit :=
  (insert_message p sql_path ;; insert_insight p sql_path)%prog.

(** Whether sqlite3 refuses a parameter of the row of [p]. *)
Definition unbindable (p : processed) : bool :=
  match first_error (insight_params p) with
  | Some _ => true
  | None => false
  end.

(** A line the read loop skips. *)
Definition blank (l : str * nat) : bool := is_empty (strip (fst l)).

(** The file after [next(file)] has returned each of the lines [ls]. *)
Definition advance (f : file) (ls : list (str * nat)) : file :=
  fold_left (fun f l => after_next f (snd l)) ls f.

(** The world after the two writes of the read loop for [p]. *)
Definition written (p : processed) (sql_path : str) (e : env) (w : world)
  : world :=
  snd (write_both p sql_path e w).

(** The world after the read loop has processed the raw message of a
    line, up to the update of the offset. *)
Definition handled (raw : value) (sql_path : str) (e : env) (w : world)
  : world :=
  match normalize raw (clock w) with
  | inr p => written p sql_path e (logged INFO "Processed message: " None w)
  | inl _ => logged ERROR "Error processing message: " None w
  end.

(** The world in which the read loop of a cycle starts: the position is
    logged and the file has been opened. *)
Definition entered (w : world) : world :=
  set_opens (S (opens w))
    (logged INFO "3. Read from live data file at position "
       (Some (last_position w)) w).

(** A computation is framed by the log when it never reads it and only
    appends to it: records put in front of the log stay in front, and
    nothing else changes. *)
Definition framed {A} (c : M A) : Prop :=
  forall e w a,
    c e (set_log (a ++ log w) w)
    = (fst (c e w), set_log (a ++ log (snd (c e w))) (snd (c e w))).

(** The records consume_messages_from_file logs before its argument
    [last_position], and after it up to the polling loop. *)
Definition call_records (interval : Z) : list entry :=
  [ Entry INFO "Called consume_messages_from_file() with:" None;
    Entry INFO "   live_data_path=" None;
    Entry INFO "   sql_path=" None;
    Entry INFO "   interval_secs=" (Some interval) ].

Definition init_records : list entry :=
  [ Entry INFO "1. Initialize the database." None;
    Entry INFO "Initialized insights DB/table at " None;
    Entry INFO "2. Set the last position to 0 to start at the beginning of the file." None ].

(** The world consume_messages_from_file leaves when its first, or its
    second, initialisation fails. *)
Definition init_db_failed (interval lp : Z) (w : world) : world :=
  World (log w ++ call_records interval
         ++ [Entry INFO "   last_position=" (Some lp)]
         ++ [Entry INFO "1. Initialize the database." None])
        (db_exists w) (primary w) (insights w) (clock w) (opens w)
        (S (db_ops w)) lp.

Definition init_insights_failed (interval lp : Z) (w : world) : world :=
  World (log w ++ call_records interval
         ++ [Entry INFO "   last_position=" (Some lp)]
         ++ [Entry INFO "1. Initialize the database." None;
             Entry ERROR "ERROR: Failed to initialize insights DB: " None])
        true (primary w) (insights w) (clock w) (opens w)
        (S (S (db_ops w))) lp.

(** The world in which the polling loop of consume_messages_from_file
    starts, when both initialisations succeed. *)
Definition polling_start (interval lp : Z) (w : world) : world :=
  World (log w ++ call_records interval
         ++ [Entry INFO "   last_position=" (Some lp)] ++ init_records)
        true (primary w) (insights w) (clock w) (opens w)
        (S (S (db_ops w))) 0.

(** The world in which the polling loop starts, without its log. *)
Definition polling_base (w : world) : world :=
  World [] true (primary w) (insights w) (clock w) (opens w)
        (S (S (db_ops w))) 0.

(** The records main logs first. *)
Definition start_records : list entry :=
  [ Entry INFO "Starting Consumer to run continuously." None;
    Entry INFO "Things can fail or get interrupted, so use a try block." None;
    Entry INFO "Moved .env variables into a utils config module." None;
    Entry INFO "STEP 1. Read environment variables using new config functions." None ].

(** The world in which main calls consume_messages_from_file, when the
    configuration is read, a prior database file is deleted and both
    initialisations succeed. *)
Definition started (w : world) : world :=
  World (log w ++ start_records
         ++ [Entry INFO "SUCCESS: Read environment variables." None;
             Entry INFO "STEP 2. Delete any prior database file for a fresh start." None]
         ++ (if db_exists w
             then [Entry INFO "SUCCESS: Deleted database file." None]
             else [])
         ++ [Entry INFO "STEP 3. Initialize a new database with an empty table." None;
             Entry INFO "Initialized insights DB/table at " None;
             Entry INFO "STEP 4. Begin consuming and storing messages." None])
        true
        (if db_exists w then [] else primary w)
        (if db_exists w then [] else insights w)
        (clock w) (opens w) (S (S (db_ops w))) (last_position w).

(** The start of a process goes well: the settings [c] are read, a
    prior database file can be deleted, and the four initialisations
    (two in main, two in consume_messages_from_file) succeed. *)
Definition starts_well (e : env) (w : world) (c : config) : Prop :=
  settings e = Some c
  /\ (db_exists w = false \/ unlink_fails e = false)
  /\ db_fails e (db_ops w) = false
  /\ db_fails e (S (db_ops w)) = false
  /\ db_fails e (S (S (db_ops w))) = false
  /\ db_fails e (S (S (S (db_ops w)))) = false.

(** The last statements of main around the call. *)
Definition guarded (body : M unit) : M unit :=
  try_finally
    (try_except_2 body is_KeyboardInterrupt
       (logger WARNING "Consumer interrupted by user." None)
       (fun e => logger ERROR "ERROR: Unexpected error: " None))
    (logger INFO "TRY/FINALLY: Consumer shutting down." None).

(** The world after a cycle that did not find the file. *)
Definition waited (interval : Z) (w : world) : world :=
  set_clock (clock w + interval)
    (logged ERROR "ERROR: Live data file not found at " None (entered w)).

(** The world after the generic handler of a cycle has logged. *)
Definition aborted (w : world) : world :=
  logged ERROR "ERROR: Error reading from live data file: " None w.

(** The initial world of a fresh process: nothing logged, no database
    file, the clock at [t]. *)
Definition fresh (t : Z) : world := World [] false [] [] t 0 0 0.

(** Surroundings in which nothing fails, with the given settings and the
    same content of the live data file at every open(). *)
Definition calm (cfg : config) (st : file_state) : env :=
  Env (fun _ => st) (fun _ => false) (Some cfg) false.

End Views.

(* ================================================================== *)
(** * Sample inputs                                                    *)
(* ================================================================== *)

Module Samples.
Import Py Runtime TextFile Consumer Views.
Open Scope string_scope.
Open Scope list_scope.

(** The raw message made of one line of JSON text, when it is valid. *)
Definition parsed (line : string) : value :=
  match Json.loads (js line) with
  | inr v => v
  | inl _ => VNone
  end.

Definition cfg : config := Config 5 (u "live.json") (u "db.sqlite").

(** The dict process_message returns for a raw message in a fresh
    world, if it returns one. *)
Definition processed_of (raw : value) : option processed :=
  match fst (process_message raw (calm cfg Absent) (fresh 0)) with
  | Ok r => r
  | _ => None
  end.

(** The example message of the docstring of the source, on one line,
    and the dict process_message makes of it at time 0. *)
Definition line_meme : str :=
  js "{'message': 'I just shared a meme! It was amazing.', 'author': 'Charlie', 'timestamp': '2025-01-29 14:35:20', 'category': 'humor', 'sentiment': 0.87, 'keyword_mentioned': 'meme', 'message_length': 42}".

Definition record_meme : processed :=
  Processed (VStr (u "I just shared a meme! It was amazing."))
    (VStr (u "Charlie")) (VStr (u "2025-01-29 14:35:20")) (VStr (u "humor"))
    (dec_to_float false 87 (-2)) (u "high") (VStr (u "meme")) 42 8 0.

(** Lines of the live data file, without their terminators. *)
Definition line_good : str :=
  js "{'message': 'a  b', 'author': 'C', 'sentiment': 0.61}".
Definition line_good2 : str :=
  js "{'message': 'second', 'sentiment': 0.2, 'message_length': 6}".
Definition line_bad : str := js "{bad".
Definition line_cut : str := js "{'message': 'cut in the mid".
Definition nl : str := [10%N].

(** One valid line, one malformed line, one more valid line. *)
Definition file_good_bad_good : str :=
  line_good ++ nl ++ line_bad ++ nl ++ line_good2 ++ nl.

(** A malformed line first, then a valid one. *)
Definition file_bad_good : str := line_bad ++ nl ++ line_good ++ nl.

(** Two complete lines and a third one that is not finished. *)
Definition file_two_and_cut : str :=
  line_good ++ nl ++ line_good2 ++ nl ++ line_cut.

(** Two empty lines and a valid line without its terminator. *)
Definition file_unterminated : str := nl ++ nl ++ line_good.


(** The live data file made of one valid line. *)
Definition file_one : str := line_good ++ nl.

(** Surroundings in which the live data file never shows up. *)
Definition never_there : env := calm cfg Absent.

Definition no_init : env :=
  Env (fun _ => Absent) (fun n => Nat.eqb n 0) (Some cfg) false.

(** A world in which a database file is left from an earlier run. *)
Definition used : world := World [] true [] [] 0 0 0 0.

(** Surroundings in which the insert into the insight table fails when
    it is the [k]-th database operation. *)
Definition failing_at (k : nat) : env :=
  Env (fun _ => Present file_one) (fun n => Nat.eqb n k) (Some cfg) false.

(** The numbers of rows of the two tables after a run. *)
Definition rows (r : result unit * world) : nat * nat :=
  (List.length (primary (snd r)), List.length (insights (snd r))).

(** The outcome of a process: its exit status and the numbers of rows
    of the two tables. *)
Definition outcome (r : result unit * world) : option Z * nat * nat :=
  (exit_status (fst r), List.length (primary (snd r)),
   List.length (insights (snd r))).

Definition record_hi : processed :=
  Processed (VStr (u "hi")) VNone VNone VNone
    (dec_to_float false 61 (-2)) (u "high") VNone 2 1 0.

Definition record_ab : processed :=
  Processed (VStr (u "a  b")) (VStr (u "C")) VNone VNone
    (dec_to_float false 61 (-2)) (u "high") VNone 4 2 0.

Definition record_abc : processed :=
  Processed (VStr (u " a  b c ")) VNone VNone VNone
    lit_0_0 (u "low") VNone 8 3 0.

End Samples.

(* ================================================================== *)
(** * Notions of the specification                                     *)
(* ================================================================== *)

Module Spec.
Import Py.

(** Follows the spec's words: the number of whitespace-delimited tokens
    of a text.  A token is a maximal run of characters that are not
    whitespace; tokens are counted by their first characters, the
    characters that are not whitespace and come first in the text or
    just after a whitespace character.  [after_space] tells whether the
    text read so far is empty or ends with whitespace. *)
Fixpoint token_starts (after_space : bool) (s : str) : nat :=
  match s with
  | [] => 0
  | c :: s' =>
      (if negb (isspace c) && after_space then 1 else 0)
      + token_starts (isspace c) s'
  end.

Definition token_count (s : str) : nat := token_starts true s.

(** A character that is not whitespace. *)
Definition nonspace (c : N) : bool := negb (isspace c).

(** A line terminator of the live data file. *)
Definition is_terminator (c : N) : bool := ((c =? 10) || (c =? 13))%N.

(** A segment of text that holds no line terminator: a line that is
    not finished. *)
Definition unterminated (s : str) : Prop :=
  forallb (fun c => negb (is_terminator c)) s = true.

End Spec.

(* ================================================================== *)
(** * Further notions for the properties of the whole program          *)
(* ================================================================== *)

Module More.
Import Py Runtime TextFile Consumer Views Samples.
Open Scope string_scope.
Open Scope list_scope.

(** [d.get(k, default)] on the items of a dict. *)
Definition field (d : list (str * value)) (k : string) (default : value)
  : value :=
  match dict_find d (u k) with
  | Some v => v
  | None => default
  end.

(** The text process_message works on: [d.get("message", "") or ""]. *)
Definition text_of (d : list (str * value)) : value :=
  or_ (field d "message" (VStr [])) (VStr []).

(** The dict process_message builds from the items [d] of a raw
    message, once its text, its sentiment and its length are known. *)
Definition record_of (d : list (str * value)) (text : str) (f : float)
  (z now : Z) : processed :=
  Processed (VStr text) (field d "author" VNone) (field d "timestamp" VNone)
    (field d "category" VNone) f (label_of f)
    (field d "keyword_mentioned" VNone) z
    (Z.of_nat (List.length (split text))) now.

(** An int that fits the INTEGER of SQLite. *)
Definition int64 (z : Z) : bool := ((- 2 ^ 63 <=? z) && (z <? 2 ^ 63))%Z.

(** A value of JSON that sqlite3 takes as a parameter: null, a boolean,
    a number that fits, a string that can be encoded. *)
Definition plain (v : value) : bool :=
  match v with
  | VNone | VBool _ | VFloat _ => true
  | VInt z => int64 z
  | VStr s => negb (existsb is_surrogate s)
  | VList _ | VDict _ => false
  end.



(** The tables of [w'] are those of [w] with at most one more row
    each. *)
Definition one_more (w w' : world) : Prop :=
  (exists rows, primary w' = primary w ++ rows /\ List.length rows <= 1)
  /\ (exists rows, insights w' = insights w ++ rows /\ List.length rows <= 1).


Definition record_empty : processed :=
  Processed (VStr []) VNone VNone VNone lit_0_0 (u "low") VNone 0 0 0.
Definition record_listed : processed :=
  Processed (VStr (u "hi")) (VList [VStr (u "A")]) VNone VNone lit_0_0
    (u "low") VNone 2 1 0.
Definition record_declared : processed :=
  Processed (VStr (u "hi there")) VNone VNone VNone lit_0_0 (u "low") VNone
    42 2 0.


(** Settings with a negative interval. *)
Definition cfg_negative : config := Config (-1) (u "live.json") (u "db.sqlite").

(** Surroundings in which the third database operation fails, the first
    initialisation of consume_messages_from_file. *)
Definition no_second_init : env :=
  Env (fun _ => Present file_one) (fun n => Nat.eqb n 2) (Some cfg) false.

(** A live data file of whitespace only: two empty lines, a line of
    blanks with a no-break space, a last line of one tab. *)
Definition file_blank : str := [10; 13; 10; 32; 160; 32; 10; 9]%N.

End More.

(* ================================================================== *)
(** * Properties of the builtins                                       *)
(* ================================================================== *)

Import Py Runtime TextFile Consumer Views Samples More.
Open Scope string_scope.
Open Scope list_scope.

Unset Implicit Arguments.

Section Checks.

(** The example message of the source goes through json.loads and
    process_message as expected. *)
Example meme_processed :
  match Json.loads line_meme with
  | inr raw => processed_of raw
  | inl _ => None
  end = Some record_meme.
Proof. vm_compute. reflexivity. Qed.

(** 0.87 is read as the binary64 number 0x1.bd70a3d70a3d7p-1. *)
Example float_0_87 :
  dec_to_float false 87 (-2) = S754_finite false 7836263351624663 (-53).
Proof. vm_compute. reflexivity. Qed.

(** Decimal literals round to nearest, ties to even, and overflow to
    infinity; the smallest subnormal is reached. *)
Example float_rounding :
  dec_to_float false 1 (-1) = S754_finite false 7205759403792794 (-56)
  /\ dec_to_float false 9007199254740993 0 = S754_finite false 4503599627370496 1
  /\ dec_to_float false 5 (-324) = S754_finite false 1 (-1074)
  /\ dec_to_float false 1 400 = S754_infinity false.
Proof. repeat split; vm_compute; reflexivity. Qed.

(** What json.loads refuses: a trailing comma, a leading zero, a
    number that ends with its dot, text after the value, a control
    character in a string; and what it accepts beyond JSON. *)
Example loads_refuses :
  Json.loads (js "[1,2,]") = inl Json.JSONDecodeError
  /\ Json.loads (js "01") = inl Json.JSONDecodeError
  /\ Json.loads (js "1.") = inl Json.JSONDecodeError
  /\ Json.loads (js "{} x") = inl Json.JSONDecodeError
  /\ Json.loads (34 :: 9 :: 34 :: nil)%N = inl Json.JSONDecodeError
  /\ Json.loads (js "{'a': 1, 'a': NaN}") = inr (VDict [(u "a", VFloat S754_nan)]).
Proof. repeat split; vm_compute; reflexivity. Qed.

(** The lines of a text with the three kinds of terminator and an
    unfinished last line. *)
Example lines_sample :
  lines (File (u "ab" ++ [10; 13; 10]%N ++ u "cd" ++ [13]%N ++ u "ef") 0 true)
  = [ (u "ab" ++ nl, 3); (nl, 2); (u "cd" ++ nl, 3); (u "ef", 2) ].
Proof. vm_compute. reflexivity. Qed.

(** tell() answers after a seek and is refused once next() has
    returned a line. *)
Example tell_during_iteration :
  tell (File file_one 54 true) (calm cfg Absent) (fresh 0)
  = (Ok 54%Z, fresh 0)
  /\ tell (after_next (File file_one 0 true) 54) (calm cfg Absent) (fresh 0)
     = (Raise OSError, fresh 0).
Proof. split; reflexivity. Qed.

End Checks.

Section SplitFacts.

Import Spec.

Lemma split_from_cons (cur : option str) (c : N) (s : str) :
  split_from cur (c :: s)
  = if isspace c then
      match cur with
      | Some w => rev w :: split_from None s
      | None => split_from None s
      end
    else split_from (Some (c :: match cur with Some w => w | None => [] end)) s.
Proof. reflexivity. Qed.

Lemma filter_nonspace_cons (c : N) (s : str) :
  filter nonspace (c :: s)
  = if isspace c then filter nonspace s else c :: filter nonspace s.
Proof. unfold nonspace at 1. simpl. unfold nonspace at 1. now destruct (isspace c). Qed.

Lemma split_from_length (s : str) :
  forall cur,
    List.length (split_from cur s)
    = match cur with
      | Some _ => S (Spec.token_starts false s)
      | None => Spec.token_starts true s
      end.
Proof.
  induction s as [|c s' IH]; intros cur; simpl.
  - now destruct cur.
  - destruct (isspace c); simpl.
    + destruct cur; simpl; now rewrite (IH None).
    + now rewrite IH; destruct cur.
Qed.

(** The words of a split are the maximal runs: none is empty, none
    holds whitespace, and together they are the text without its
    whitespace. *)
Lemma rev_word_ok (w : str) :
  w <> [] /\ forallb nonspace w = true ->
  rev w <> [] /\ forallb nonspace (rev w) = true.
Proof.
  intros [Hne Hns]. split.
  - intro E. apply Hne. rewrite <- (rev_involutive w), E. reflexivity.
  - rewrite forallb_forall in *. intros x Hx. apply Hns. now apply in_rev.
Qed.

Lemma split_from_words (s : str) :
  forall cur,
    match cur with
    | Some w => w <> [] /\ forallb nonspace w = true
    | None => True
    end ->
    Forall (fun x => x <> [] /\ forallb nonspace x = true) (split_from cur s)
    /\ List.concat (split_from cur s)
       = rev (match cur with Some w => w | None => [] end)
         ++ filter nonspace s.
Proof.
  induction s as [|c s' IH]; intros cur Hcur.
  - destruct cur as [w|]; simpl.
    + split; [constructor; [now apply rev_word_ok|constructor]|].
      now rewrite !app_nil_r.
    + split; [constructor|reflexivity].
  - rewrite split_from_cons, filter_nonspace_cons.
    destruct (isspace c) eqn:Hc.
    + destruct cur as [w|].
      * destruct (IH None I) as [IH1 IH2]. split.
        -- constructor; [now apply rev_word_ok|exact IH1].
        -- change (rev w ++ List.concat (split_from None s')
                   = rev w ++ filter nonspace s').
           apply f_equal. exact IH2.
      * apply (IH None I).
    + set (w' := c :: match cur with Some w => w | None => [] end).
      assert (Hn : w' <> [] /\ forallb nonspace w' = true).
      { split; [discriminate|]. subst w'.
        change (nonspace c
                && forallb nonspace match cur with Some w => w | None => [] end
                = true).
        unfold nonspace at 1. rewrite Hc.
        destruct cur as [w|]; [apply Hcur|reflexivity]. }
      destruct (IH (Some w') Hn) as [IH1 IH2].
      split; [exact IH1|]. etransitivity; [exact IH2|]. subst w'.
      change (rev (c :: match cur with Some w => w | None => [] end))
        with (rev match cur with Some w => w | None => [] end ++ [c]).
      now rewrite <- app_assoc.
Qed.

Lemma split_length (s : str) :
  List.length (split s) = Spec.token_count s.
Proof. apply (split_from_length s None). Qed.

Lemma token_starts_spaces (s : str) (b : bool) :
  forallb isspace s = true -> Spec.token_starts b s = 0.
Proof.
  revert b. induction s as [|c s' IH]; intros b H; simpl in *; [reflexivity|].
  apply andb_true_iff in H. destruct H as [Hc Hs]. rewrite Hc. simpl.
  now apply IH.
Qed.

Lemma token_starts_after_spaces (ws s : str) (b : bool) :
  ws <> [] -> forallb isspace ws = true ->
  Spec.token_starts b (ws ++ s) = Spec.token_starts true s.
Proof.
  revert b. induction ws as [|c ws' IH]; intros b Hne H; [congruence|].
  simpl in *. apply andb_true_iff in H. destruct H as [Hc Hs]. rewrite Hc.
  simpl. destruct ws' as [|c' ws'']; [reflexivity|].
  apply IH; [discriminate|exact Hs].
Qed.

End SplitFacts.

Section FloatFacts.

(** The two thresholds of the labeling, as binary64 numbers:
    0x1.3333333333333p-1 and 0x1.999999999999ap-2. *)
Lemma lit_0_6_value : lit_0_6 = S754_finite false 5404319552844595 (-53).
Proof. reflexivity. Qed.

Lemma lit_0_4_value : lit_0_4 = S754_finite false 7205759403792794 (-54).
Proof. reflexivity. Qed.

Lemma SFcompare_antisym (a b : float) :
  SFcompare b a = option_map CompOpp (SFcompare a b).
Proof.
  destruct a as [sa|sa| |sa ma ea], b as [sb|sb| |sb mb eb];
    try reflexivity;
    try (destruct sa; reflexivity);
    try (destruct sb; reflexivity);
    try (destruct sa, sb; reflexivity).
  simpl. destruct sa, sb; try reflexivity;
    rewrite (Z.compare_antisym ea eb);
    destruct (ea ?= eb)%Z; simpl; try reflexivity;
    rewrite (Pos.compare_cont_antisym ma mb Eq); simpl;
    try reflexivity; now rewrite CompOpp_involutive.
Qed.

(** [a <= b] excludes [a > b]. *)
Lemma float_le_not_gt (a b : float) :
  float_ge b a = true -> float_gt a b = false.
Proof.
  unfold float_ge, float_gt, SFleb, SFltb.
  rewrite (SFcompare_antisym a b).
  destruct (SFcompare a b) as [[]|]; simpl; congruence.
Qed.

(** [a < b] excludes [a >= b]. *)
Lemma float_lt_not_ge (a b : float) :
  float_gt b a = true -> float_ge a b = false.
Proof.
  unfold float_ge, float_gt, SFleb, SFltb.
  rewrite (SFcompare_antisym a b).
  destruct (SFcompare a b) as [[]|]; simpl; congruence.
Qed.

(** Below a positive number is not above a positive number with a
    larger exponent. *)
Lemma float_lt_not_gt_larger (s : float) (m1 m2 : positive) (e1 e2 : Z) :
  (e1 < e2)%Z ->
  float_gt (S754_finite false m1 e1) s = true ->
  float_gt s (S754_finite false m2 e2) = false.
Proof.
  intros He. unfold float_gt, SFltb.
  destruct s as [sz|si| |sf m e]; simpl; try reflexivity.
  - destruct si; [reflexivity|discriminate].
  - destruct sf; [reflexivity|].
    destruct (Z.compare_spec e e1) as [H1|H1|H1];
      destruct (Z.compare_spec e2 e) as [H2|H2|H2];
      try reflexivity; try discriminate; lia.
Qed.

(** Below 0.4 is not above 0.6. *)
Lemma float_lt_0_4_not_gt_0_6 (s : float) :
  float_gt lit_0_4 s = true -> float_gt s lit_0_6 = false.
Proof.
  rewrite lit_0_6_value, lit_0_4_value.
  apply float_lt_not_gt_larger. reflexivity.
Qed.

Lemma label_high (s : float) :
  float_gt s lit_0_6 = true -> label_of s = u "high".
Proof. intros H. unfold label_of. now rewrite H. Qed.

Lemma label_medium (s : float) :
  float_ge s lit_0_4 = true -> float_ge lit_0_6 s = true ->
  label_of s = u "medium".
Proof.
  intros H1 H2. unfold label_of.
  now rewrite (float_le_not_gt _ _ H2), H1.
Qed.

Lemma label_low (s : float) :
  float_gt lit_0_4 s = true -> label_of s = u "low".
Proof.
  intros H. unfold label_of.
  now rewrite (float_lt_0_4_not_gt_0_6 _ H), (float_lt_not_ge _ _ H).
Qed.

End FloatFacts.

(* ================================================================== *)
(** * json.loads never runs out of steps                               *)
(* ================================================================== *)

Section JsonFuel.

Import Json.

Lemma skip_ws_le (s : str) : List.length (skip_ws s) <= List.length s.
Proof.
  induction s as [|c s' IH]; simpl; [lia|].
  destruct (is_ws c); simpl; lia.
Qed.

Lemma scanstring_lt (n : nat) :
  forall s acc x rest,
    List.length s <= n ->
    scanstring acc s = Some (x, rest) ->
    List.length rest < List.length s.
Proof.
  induction n as [|n IH]; intros s acc x rest Hn H.
  - destruct s; [discriminate|simpl in Hn; lia].
  - destruct s as [|c r0]; [discriminate|].
    cbn [scanstring] in H. cbn [List.length] in *.
    destruct (c =? 34)%N.
    { injection H as _ <-. lia. }
    destruct (c =? 92)%N.
    2:{ destruct (c <? 32)%N; [discriminate|].
        apply IH in H; lia. }
    destruct r0 as [|e r1]; [discriminate|]. cbn [List.length] in *.
    destruct (e =? 117)%N.
    2:{ destruct (escape e); [|discriminate]. apply IH in H; lia. }
    destruct r1 as [|a [|b [|c' [|d r2]]]]; try discriminate.
    cbn [List.length] in *.
    destruct (hex4 a b c' d) as [uni|]; [|discriminate].
    destruct ((55296 <=? uni) && (uni <=? 56319))%N.
    2:{ apply IH in H; lia. }
    destruct r2 as [|bs [|uc [|a2 [|b2 [|c2 [|d2 r3]]]]]];
      try (apply IH in H; cbn [List.length] in *; lia).
    destruct (u_escape _) as [[uni2 r]|];
      [|apply IH in H; cbn [List.length] in *; lia].
    destruct ((56320 <=? uni2) && (uni2 <=? 57343))%N;
      apply IH in H; cbn [List.length] in *; lia.
Qed.

Lemma span_length (p : N -> bool) (s : str) :
  List.length s
  = List.length (fst (span p s)) + List.length (snd (span p s)).
Proof.
  induction s as [|c s' IH]; [reflexivity|].
  cbn [span]. destruct (p c); [|reflexivity].
  destruct (span p s') as [a b]. cbn [fst snd List.length] in *. lia.
Qed.

Lemma scan_minus_le (s : str) :
  List.length (snd (scan_minus s)) <= List.length s.
Proof.
  destruct s as [|c r]; [simpl; lia|]. unfold scan_minus.
  destruct (c =? 45)%N; simpl; lia.
Qed.

Lemma scan_int_lt (s ip r : str) :
  scan_int s = Some (ip, r) -> List.length r < List.length s.
Proof.
  unfold scan_int. pose proof (span_length is_digit s) as Hs.
  destruct (span is_digit s) as [[|d0 more] after]; [discriminate|].
  cbn [fst snd List.length] in Hs.
  destruct (d0 =? 48)%N; intros [= _ <-]; [rewrite length_app|]; lia.
Qed.

Lemma scan_frac_le (s : str) :
  List.length (snd (scan_frac s)) <= List.length s.
Proof.
  destruct s as [|c r]; [simpl; lia|]. unfold scan_frac.
  destruct (c =? 46)%N; [|simpl; lia].
  pose proof (span_length is_digit r) as Hr.
  destruct (span is_digit r) as [[|f0 f] r']; cbn [fst snd List.length] in *; lia.
Qed.

Lemma scan_exp_sign_le (s : str) :
  List.length (snd (scan_exp_sign s)) <= List.length s.
Proof.
  destruct s as [|c r]; [simpl; lia|]. unfold scan_exp_sign.
  destruct (c =? 45)%N; [simpl; lia|]. destruct (c =? 43)%N; simpl; lia.
Qed.

Lemma scan_exp_le (s : str) :
  List.length (snd (scan_exp s)) <= List.length s.
Proof.
  destruct s as [|c r]; [simpl; lia|]. unfold scan_exp.
  destruct ((c =? 101) || (c =? 69))%N; [|simpl; lia].
  pose proof (scan_exp_sign_le r) as Hg.
  destruct (scan_exp_sign r) as [eneg r']. cbn [snd] in Hg.
  pose proof (span_length is_digit r') as Hr.
  destruct (span is_digit r') as [[|e0 ed] r''];
    cbn [fst snd List.length] in *; lia.
Qed.

Lemma scan_number_lt (s : str) (v : value) (rest : str) :
  scan_number s = Some (v, rest) -> List.length rest < List.length s.
Proof.
  unfold scan_number. pose proof (scan_minus_le s) as H1.
  destruct (scan_minus s) as [neg s1]. cbn [snd] in H1.
  destruct (scan_int s1) as [[ip r1]|] eqn:E; [|discriminate].
  apply scan_int_lt in E.
  pose proof (scan_frac_le r1) as H2.
  destruct (scan_frac r1) as [fp r2]. cbn [snd] in H2.
  pose proof (scan_exp_le r2) as H3.
  destruct (scan_exp r2) as [ex r3]. cbn [snd] in H3.
  intros H. assert (rest = r3) by (destruct fp, ex; now injection H as _ <-).
  subst rest. lia.
Qed.

Lemma strip_prefix_length (p : str) :
  forall s r, strip_prefix p s = Some r ->
              List.length s = List.length p + List.length r.
Proof.
  induction p as [|a p' IH]; intros s r H.
  - cbn in H. now injection H as <-.
  - destruct s as [|b s']; [discriminate|]. cbn [strip_prefix] in H.
    destruct (a =? b)%N; [|discriminate].
    apply IH in H. cbn [List.length]. lia.
Qed.

Lemma scan_constant_lt (s : str) (v : value) (rest : str) :
  scan_constant s = Some (v, rest) -> List.length rest < List.length s.
Proof.
  unfold scan_constant.
  destruct (strip_prefix (u "null") s) as [r|] eqn:E1.
  { intros [= _ <-]. apply strip_prefix_length in E1. cbn in E1. lia. }
  destruct (strip_prefix (u "true") s) as [r|] eqn:E2.
  { intros [= _ <-]. apply strip_prefix_length in E2. cbn in E2. lia. }
  destruct (strip_prefix (u "false") s) as [r|] eqn:E3.
  { intros [= _ <-]. apply strip_prefix_length in E3. cbn in E3. lia. }
  destruct (scan_number s) as [[v' r]|] eqn:E4.
  { intros [= _ <-]. now apply scan_number_lt in E4. }
  destruct (strip_prefix (u "NaN") s) as [r|] eqn:E5.
  { intros [= _ <-]. apply strip_prefix_length in E5. cbn in E5. lia. }
  destruct (strip_prefix (u "Infinity") s) as [r|] eqn:E6.
  { intros [= _ <-]. apply strip_prefix_length in E6. cbn in E6. lia. }
  destruct (strip_prefix (u "-Infinity") s) as [r|] eqn:E7; [|discriminate].
  intros [= _ <-]. apply strip_prefix_length in E7. cbn in E7. lia.
Qed.

(** Every scanner leaves less text than it was given. *)
Lemma scan_lt (fuel : nat) :
  (forall s v r, scan_once fuel s = Parsed v r ->
                 List.length r < List.length s)
  /\ (forall acc s v r, scan_items fuel acc s = Parsed v r ->
                        List.length r < List.length s)
  /\ (forall acc s v r, scan_members fuel acc s = Parsed v r ->
                        List.length r < List.length s).
Proof.
  induction fuel as [|f (IH1 & IH2 & IH3)].
  - repeat split; intros; discriminate.
  - split; [|split].
    + intros s v r H. cbn [scan_once] in H.
      destruct s as [|c s']; [discriminate|].
      destruct (c =? 34)%N.
      { destruct (scanstring [] s') as [[x rest]|] eqn:E; [|discriminate].
        injection H as _ <-.
        apply (scanstring_lt (List.length s')) in E; cbn [List.length]; lia. }
      destruct (c =? 123)%N.
      { pose proof (skip_ws_le s') as Hw.
        destruct (skip_ws s') as [|c1 rest]; [discriminate|].
        cbn [List.length] in *.
        destruct (c1 =? 125)%N; [injection H as _ <-; lia|].
        destruct (c1 =? 34)%N; [|discriminate].
        apply IH3 in H. lia. }
      destruct (c =? 91)%N.
      { pose proof (skip_ws_le s') as Hw.
        destruct (skip_ws s') as [|c1 rest]; [discriminate|].
        cbn [List.length] in *.
        destruct (c1 =? 93)%N; [injection H as _ <-; lia|].
        apply IH2 in H. cbn [List.length] in H. lia. }
      destruct (scan_constant (c :: s')) as [[v' rest]|] eqn:E; [|discriminate].
      injection H as _ <-. now apply scan_constant_lt in E.
    + intros acc s v r H. cbn [scan_items] in H.
      destruct (scan_once f s) as [v' rest| |] eqn:E; try discriminate.
      apply IH1 in E. pose proof (skip_ws_le rest) as Hw.
      destruct (skip_ws rest) as [|c r']; [discriminate|].
      cbn [List.length] in *.
      destruct (c =? 93)%N; [injection H as _ <-; lia|].
      destruct (c =? 44)%N; [|discriminate].
      apply IH2 in H. pose proof (skip_ws_le r'). lia.
    + intros acc s v r H. cbn [scan_members] in H.
      destruct (scanstring [] s) as [[key r0]|] eqn:E; [|discriminate].
      apply (scanstring_lt (List.length s)) in E; [|lia].
      pose proof (skip_ws_le r0) as Hw.
      destruct (skip_ws r0) as [|c r1]; [discriminate|].
      cbn [List.length] in *.
      destruct (c =? 58)%N; [|discriminate].
      destruct (scan_once f (skip_ws r1)) as [v' r2| |] eqn:E1;
        try discriminate.
      apply IH1 in E1. pose proof (skip_ws_le r1) as Hw1.
      pose proof (skip_ws_le r2) as Hw2.
      destruct (skip_ws r2) as [|c2 r3]; [discriminate|].
      cbn [List.length] in *.
      destruct (c2 =? 125)%N; [injection H as _ <-; lia|].
      destruct (c2 =? 44)%N; [|discriminate].
      pose proof (skip_ws_le r3) as Hw3.
      destruct (skip_ws r3) as [|c3 r4]; [discriminate|].
      cbn [List.length] in *.
      destruct (c3 =? 34)%N; [|discriminate].
      apply IH3 in H. lia.
Qed.

(** Two steps per character are enough for every scanner. *)
Lemma scan_enough (fuel : nat) :
  (forall s, 2 * List.length s + 1 <= fuel -> scan_once fuel s <> TooDeep)
  /\ (forall acc s, 2 * List.length s + 2 <= fuel ->
                    scan_items fuel acc s <> TooDeep)
  /\ (forall acc s, 2 * List.length s + 1 <= fuel ->
                    scan_members fuel acc s <> TooDeep).
Proof.
  induction fuel as [|f (IH1 & IH2 & IH3)].
  - repeat split; intros; lia.
  - split; [|split].
    + intros s Hf. cbn [scan_once].
      destruct s as [|c s']; [discriminate|]. cbn [List.length] in Hf.
      destruct (c =? 34)%N.
      { destruct (scanstring [] s') as [[x rest]|]; discriminate. }
      destruct (c =? 123)%N.
      { pose proof (skip_ws_le s') as Hw.
        destruct (skip_ws s') as [|c1 rest]; [discriminate|].
        cbn [List.length] in *.
        destruct (c1 =? 125)%N; [discriminate|].
        destruct (c1 =? 34)%N; [|discriminate].
        apply IH3. lia. }
      destruct (c =? 91)%N.
      { pose proof (skip_ws_le s') as Hw.
        destruct (skip_ws s') as [|c1 rest]; [discriminate|].
        cbn [List.length] in *.
        destruct (c1 =? 93)%N; [discriminate|].
        apply IH2. cbn [List.length]. lia. }
      destruct (scan_constant (c :: s')) as [[v' rest]|]; discriminate.
    + intros acc s Hf. cbn [scan_items].
      pose proof (IH1 s) as G1.
      destruct (scan_once f s) as [v' rest| |] eqn:E;
        [|discriminate|apply G1; lia].
      apply (proj1 (scan_lt f)) in E. pose proof (skip_ws_le rest) as Hw.
      destruct (skip_ws rest) as [|c r']; [discriminate|].
      cbn [List.length] in *.
      destruct (c =? 93)%N; [discriminate|].
      destruct (c =? 44)%N; [|discriminate].
      apply IH2. pose proof (skip_ws_le r'). lia.
    + intros acc s Hf. cbn [scan_members].
      destruct (scanstring [] s) as [[key r0]|] eqn:E; [|discriminate].
      apply (scanstring_lt (List.length s)) in E; [|lia].
      pose proof (skip_ws_le r0) as Hw.
      destruct (skip_ws r0) as [|c r1]; [discriminate|].
      cbn [List.length] in *.
      destruct (c =? 58)%N; [|discriminate].
      pose proof (skip_ws_le r1) as Hw1.
      pose proof (IH1 (skip_ws r1)) as G1.
      destruct (scan_once f (skip_ws r1)) as [v' r2| |] eqn:E1;
        [|discriminate|apply G1; lia].
      apply (proj1 (scan_lt f)) in E1.
      pose proof (skip_ws_le r2) as Hw2.
      destruct (skip_ws r2) as [|c2 r3]; [discriminate|].
      cbn [List.length] in *.
      destruct (c2 =? 125)%N; [discriminate|].
      destruct (c2 =? 44)%N; [|discriminate].
      pose proof (skip_ws_le r3) as Hw3.
      destruct (skip_ws r3) as [|c3 r4]; [discriminate|].
      cbn [List.length] in *.
      destruct (c3 =? 34)%N; [|discriminate].
      apply IH3. lia.
Qed.

(** json.loads in the model fails on a syntax error only. *)
Lemma loads_error (s : str) (err : Json.error) :
  Json.loads s = inl err -> err = JSONDecodeError.
Proof.
  unfold loads. pose proof (skip_ws_le s) as Hw.
  pose proof (proj1 (scan_enough (2 * List.length s + 2)) (skip_ws s)) as G.
  destruct (scan_once _ (skip_ws s)) as [v rest| |].
  - destruct (skip_ws rest); [discriminate|now intros [= <-]].
  - now intros [= <-].
  - exfalso. apply G; [lia|reflexivity].
Qed.

End JsonFuel.


(* ================================================================== *)
(** * Properties of the steps of the program                           *)
(* ================================================================== *)

Section StepFacts.

Variable e : env.

Lemma process_message_normalize (raw : value) (w : world) :
  process_message raw e w
  = match normalize raw (clock w) with
    | inr p => (Ok (Some p), logged INFO "Processed message: " None w)
    | inl _ => (Ok None, logged ERROR "Error processing message: " None w)
    end.
Proof.
  unfold process_message, normalize, try_except, bind, builtin, and_then.
  destruct raw as [ | b | z | x | s | l | d]; try reflexivity.
  unfold get, ret, raise, utcnow, gets.
  destruct (py_float _) as [err|sentiment]; [reflexivity|].
  destruct (py_split _) as [err|words]; [reflexivity|].
  destruct (py_len _) as [err|n]; [reflexivity|].
  destruct (py_int _) as [err|ml]; reflexivity.
Qed.


Lemma insert_message_run (p : processed) (sql : str) (w : world) :
  insert_message p sql e w
  = (Ok tt,
     if db_fails e (db_ops w)
     then logged ERROR "primary store: insert failed" None (db_op w)
     else set_primary (primary w ++ [p]) (db_op w)).
Proof.
  unfold insert_message, bind, db_op_fails.
  destruct (db_fails e (db_ops w)); reflexivity.
Qed.

Lemma bind_error_is_Exception (v : value) (x : exn) :
  bind_error v = Some x -> is_Exception x = true.
Proof.
  destruct v; simpl; try discriminate.
  - destruct (_ && _)%bool; [discriminate|]. now intros [= <-].
  - destruct (existsb _ _); [|discriminate]. now intros [= <-].
  - now intros [= <-].
  - now intros [= <-].
Qed.

Lemma first_error_is_Exception (l : list value) (x : exn) :
  first_error l = Some x -> is_Exception x = true.
Proof.
  induction l as [|v l' IH]; simpl; [discriminate|].
  destruct (bind_error v) as [y|] eqn:Hv; [|exact IH].
  intros [= <-]. exact (bind_error_is_Exception _ _ Hv).
Qed.

Lemma insert_insight_run (p : processed) (sql : str) (w : world) :
  insert_insight p sql e w
  = (Ok tt,
     if db_fails e (db_ops w) || unbindable p
     then logged ERROR "ERROR: Failed to insert insight into DB: " None (db_op w)
     else logged INFO "Inserted one insight row into insights_pinkston." None
            (set_insights
               (insights w ++ [(Z.of_nat (S (List.length (insights w))), p)])
               (set_db_exists true (db_op w)))).
Proof.
  unfold insert_insight, insert_insight_row, try_except, bind, db_op_fails,
    unbindable.
  destruct (db_fails e (db_ops w)); [reflexivity|].
  unfold orb.
  destruct (first_error (insight_params p)) as [x|] eqn:Hx; [|reflexivity].
  unfold raise. now rewrite (first_error_is_Exception _ _ Hx).
Qed.

(** What a dict produced by process_message looks like. *)
Lemma normalize_inr (raw : value) (now : Z) (p : processed) :
  normalize raw now = inr p ->
  exists d text s,
    raw = VDict d
    /\ or_ (match dict_find d (u "message") with Some v => v | None => VStr [] end)
           (VStr []) = VStr text
    /\ message p = VStr text
    /\ s = match dict_find d (u "sentiment") with
           | Some v => v
           | None => VFloat lit_0_0
           end
    /\ py_float s = inr (sentiment p)
    /\ sentiment_label p = label_of (sentiment p)
    /\ word_count p = Z.of_nat (List.length (split text))
    /\ processed_at p = now.
Proof.
  unfold normalize.
  destruct raw as [ | b | z | x | s | l | d]; try discriminate.
  unfold get, and_then.
  destruct (py_float _) as [err|sentiment] eqn:Hf; [discriminate|].
  destruct (or_ _ _) as [ | b | z | x | text | l | d'] eqn:Ht;
    try discriminate.
  unfold py_split, py_len.
  destruct (py_int _) as [err|ml]; [discriminate|].
  intros [= <-]. exists d, text. eexists. repeat split; simpl; eauto.
Qed.

End StepFacts.

(* ================================================================== *)
(** * Properties of the read loop and of a cycle                       *)
(* ================================================================== *)

Section LoopFacts.

Variable e : env.
Variable sql : str.

Lemma write_both_run (p : processed) (w : world) :
  write_both p sql e w = (Ok tt, written p sql e w).
Proof.
  unfold written, write_both, bind. rewrite insert_message_run.
  now rewrite insert_insight_run.
Qed.

Lemma for_line_in_blank (f : file) (l : str * nat) (rest : list (str * nat))
  (w : world) :
  blank l = true ->
  for_line_in f (l :: rest) sql e w
  = for_line_in (after_next f (snd l)) rest sql e w.
Proof.
  destruct l as [line k]. unfold blank. simpl. now intros ->.
Qed.

Lemma for_line_in_blanks (bs rest : list (str * nat)) :
  forall (f : file) (w : world),
    forallb blank bs = true ->
    for_line_in f (bs ++ rest) sql e w
    = for_line_in (advance f bs) rest sql e w.
Proof.
  induction bs as [|b bs' IH]; intros f w H; [reflexivity|].
  simpl in H. apply andb_true_iff in H. destruct H as [Hb Hbs].
  rewrite <- app_comm_cons, (for_line_in_blank _ _ _ _ Hb).
  now rewrite IH.
Qed.


(** A line that is not valid JSON: json.loads raises and nothing else
    happens. *)
Lemma for_line_in_invalid (f : file) (l : str * nat)
  (rest : list (str * nat)) (w : world) (err : Json.error) :
  blank l = false ->
  Json.loads (strip (fst l)) = inl err ->
  for_line_in f (l :: rest) sql e w = (Raise (JsonError err), w).
Proof.
  destruct l as [line k]. unfold blank. simpl. intros -> H.
  unfold bind, json_loads. now rewrite H.
Qed.

(** A line that is valid JSON: the message is processed and written,
    then the offset update raises, because tell() is disabled between
    two lines of an iteration. *)
Lemma for_line_in_valid (f : file) (l : str * nat)
  (rest : list (str * nat)) (w : world) (raw : value) :
  blank l = false ->
  Json.loads (strip (fst l)) = inr raw ->
  for_line_in f (l :: rest) sql e w = (Raise OSError, handled raw sql e w).
Proof.
  destruct l as [line k]. unfold blank. simpl. intros -> H.
  unfold bind at 1. unfold json_loads. rewrite H. unfold ret at 1.
  unfold bind at 1. rewrite process_message_normalize. unfold handled.
  destruct (normalize raw (clock w)) as [err|p].
  - reflexivity.
  - unfold bind at 1.
    change (insert_message p sql;; insert_insight p sql)
      with (write_both p sql).
    rewrite write_both_run. reflexivity.
Qed.

(** Without a failure, the two writes add one row to each table, and
    they are two database operations in any case. *)
Lemma written_ops (p : processed) (w : world) :
  db_ops (written p sql e w) = S (S (db_ops w)).
Proof.
  unfold written, write_both, bind. rewrite insert_message_run.
  rewrite insert_insight_run.
  destruct (db_fails e (db_ops w)); cbn [db_ops logged set_log db_op
    set_db_ops set_primary];
    destruct (db_fails e _ || unbindable p); reflexivity.
Qed.

Lemma written_rows (p : processed) (w : world) :
  db_fails e (db_ops w) = false ->
  db_fails e (S (db_ops w)) = false ->
  unbindable p = false ->
  primary (written p sql e w) = primary w ++ [p]
  /\ insights (written p sql e w)
     = insights w ++ [(Z.of_nat (S (List.length (insights w))), p)].
Proof.
  intros H1 H2 H3. unfold written, write_both, bind.
  rewrite insert_message_run, H1. rewrite insert_insight_run.
  cbn [db_ops db_op set_db_ops set_primary]. rewrite H2, H3.
  split; reflexivity.
Qed.

Variable live : str.
Variable interval : Z.

(** A cycle that finds the file, in terms of its read loop. *)
Lemma cycle_present (w : world) (d : str) :
  source e (opens w) = Present d ->
  (0 <= last_position w)%Z ->
  cycle live sql interval e w
  = match for_line_in (File d (Z.to_nat (last_position w)) true)
            (lines (File d (Z.to_nat (last_position w)) true)) sql e
            (entered w) with
    | (Ok _, w') =>
        if (interval <? 0)%Z then (Raise (SystemExit 11), aborted w')
        else (Ok tt, set_clock (clock w' + interval) w')
    | (Raise x, w') =>
        if is_FileNotFoundError x then
          (logger ERROR "ERROR: Live data file not found at " None ;;
           sleep interval) e w'
        else if is_Exception x then (Raise (SystemExit 11), aborted w')
        else (Raise x, w')
    | (Running, w') => (Running, w')
    end.
Proof.
  intros Hs Hp. unfold cycle, try_except_2.
  unfold bind at 1. unfold gets at 1.
  unfold bind at 1. unfold logger at 1, modify at 1.
  unfold bind at 1. unfold open_ at 1. cbn [opens set_log].
  rewrite Hs.
  unfold bind at 1. unfold gets at 1. cbn [last_position set_opens set_log].
  unfold bind at 1. unfold seek at 1.
  destruct (Z.ltb_spec (last_position w) 0) as [Hn|_]; [lia|].
  unfold ret at 1. cbn [data].
  unfold bind at 1.
  change (set_opens (S (opens w))
            (set_log (log w ++ [Entry INFO "3. Read from live data file at position "
                                  (Some (last_position w))]) w))
    with (entered w).
  destruct (for_line_in _ _ sql e (entered w)) as [[[]|x|] w'];
    try reflexivity.
  unfold sleep. destruct (interval <? 0)%Z; reflexivity.
Qed.

(** A cycle that does not find the file. *)
Lemma cycle_absent (w : world) :
  source e (opens w) = Absent ->
  (0 <= interval)%Z ->
  cycle live sql interval e w = (Ok tt, waited interval w).
Proof.
  intros Hs Hi. unfold cycle, try_except_2.
  unfold bind at 1. unfold gets at 1.
  unfold bind at 1. unfold logger at 1, modify at 1.
  unfold bind at 1. unfold open_ at 1. cbn [opens set_log].
  rewrite Hs. cbn [is_FileNotFoundError].
  unfold bind, logger, modify, sleep.
  destruct (Z.ltb_spec interval 0) as [Hn|_]; [lia|]. reflexivity.
Qed.

(** A cycle that finds the file but cannot read it. *)
Lemma cycle_unreadable (w : world) :
  source e (opens w) = Unreadable ->
  cycle live sql interval e w = (Raise (SystemExit 11), aborted (entered w)).
Proof.
  intros Hs. unfold cycle, try_except_2.
  unfold bind at 1. unfold gets at 1.
  unfold bind at 1. unfold logger at 1, modify at 1.
  unfold bind at 1. unfold open_ at 1. cbn [opens set_log].
  rewrite Hs. reflexivity.
Qed.

End LoopFacts.

(* ================================================================== *)
(** * The derived fields of a processed message                        *)
(* ================================================================== *)

Section DerivedFields.

(** C4. For every processed message the label is a function of the
    coerced sentiment alone: above 0.6 it is "high", from 0.4 to 0.6
    (both included) it is "medium", below 0.4 it is "low"; the sentiments
    0.6, 0.61, 0.4 and 0.39 of a JSON line give medium, high, medium and
    low. *)
Theorem C4_sentiment_label :
  (forall raw e w p w',
      process_message raw e w = (Ok (Some p), w') ->
      sentiment_label p = label_of (sentiment p))
  /\ (forall s, float_gt s lit_0_6 = true -> label_of s = u "high")
  /\ (forall s, float_ge s lit_0_4 = true -> float_ge lit_0_6 s = true ->
                label_of s = u "medium")
  /\ (forall s, float_gt lit_0_4 s = true -> label_of s = u "low")
  /\ option_map sentiment_label (processed_of (parsed "{'sentiment': 0.6}"))
     = Some (u "medium")
  /\ option_map sentiment_label (processed_of (parsed "{'sentiment': 0.61}"))
     = Some (u "high")
  /\ option_map sentiment_label (processed_of (parsed "{'sentiment': 0.4}"))
     = Some (u "medium")
  /\ option_map sentiment_label (processed_of (parsed "{'sentiment': 0.39}"))
     = Some (u "low").
Proof.
  split; [|split; [|split; [|split]]].
  - intros raw e w p w' H. rewrite process_message_normalize in H.
    destruct (normalize raw (clock w)) as [err|q] eqn:Hn; [discriminate|].
    injection H as <- _.
    destruct (normalize_inr _ _ _ Hn) as (d & text & s & _ & _ & _ & _ & _ & Hl & _).
    exact Hl.
  - exact label_high.
  - exact label_medium.
  - exact label_low.
  - repeat split; vm_compute; reflexivity.
Qed.

Lemma C4_sentiment_label_witness :
  sentiment_label record_hi = label_of (sentiment record_hi)
  /\ label_of (dec_to_float false 7 (-1)) = u "high"
  /\ label_of (dec_to_float false 5 (-1)) = u "medium"
  /\ label_of (dec_to_float false 1 (-1)) = u "low".
Proof.
  destruct C4_sentiment_label as (H1 & H2 & H3 & H4 & _).
  split; [|split; [|split]].
  - apply (H1 (parsed "{'message': 'hi', 'sentiment': 0.61}")
              (calm cfg Absent) (fresh 0) record_hi
              (logged INFO "Processed message: " None (fresh 0))).
    vm_compute. reflexivity.
  - apply H2. vm_compute. reflexivity.
  - apply H3; vm_compute; reflexivity.
  - apply H4. vm_compute. reflexivity.
Defined.

(** C5. For every processed message the word count is the number of
    whitespace-delimited tokens of its text; it is 0 for an empty text
    and for a text of whitespace only, and 2 for a, whitespace of any
    length, b. *)
Theorem C5_word_count_tokens :
  (forall raw e w p w',
      process_message raw e w = (Ok (Some p), w') ->
      exists text,
        message p = VStr text
        /\ word_count p = Z.of_nat (Spec.token_count text)
        /\ (forallb isspace text = true -> word_count p = 0%Z))
  /\ option_map word_count (processed_of (parsed "{'message': ''}"))
     = Some 0%Z
  /\ option_map word_count (processed_of (parsed "{'message': 'a  b'}"))
     = Some 2%Z
  /\ (forall ws, ws <> [] -> forallb isspace ws = true ->
        List.length (split (u "a" ++ ws ++ u "b")) = 2
        /\ Spec.token_count (u "a" ++ ws ++ u "b") = 2).
Proof.
  split; [|split; [|split]].
  - intros raw e w p w' H. rewrite process_message_normalize in H.
    destruct (normalize raw (clock w)) as [err|q] eqn:Hn; [discriminate|].
    injection H as <- _.
    destruct (normalize_inr _ _ _ Hn)
      as (d & text & s & _ & _ & Hm & _ & _ & _ & Hw & _).
    exists text. rewrite Hw, split_length. repeat split; [exact Hm|].
    intros Hs. unfold Spec.token_count. now rewrite token_starts_spaces.
  - vm_compute. reflexivity.
  - vm_compute. reflexivity.
  - intros ws Hne Hws. rewrite split_length. split; [|].
    + unfold Spec.token_count. change (u "a" ++ ws ++ u "b") with (97%N :: ws ++ u "b").
      cbn [Spec.token_starts]. rewrite (token_starts_after_spaces ws _ _ Hne Hws).
      reflexivity.
    + unfold Spec.token_count. change (u "a" ++ ws ++ u "b") with (97%N :: ws ++ u "b").
      cbn [Spec.token_starts]. rewrite (token_starts_after_spaces ws _ _ Hne Hws).
      reflexivity.
Qed.

Lemma C5_word_count_tokens_witness :
  (exists text,
      message record_abc = VStr text
      /\ word_count record_abc = Z.of_nat (Spec.token_count text)
      /\ (forallb isspace text = true -> word_count record_abc = 0%Z))
  /\ List.length (split (u "a" ++ [32; 9; 160]%N ++ u "b")) = 2.
Proof.
  destruct C5_word_count_tokens as (H1 & _ & _ & H4). split.
  - apply (H1 (parsed "{'message': ' a  b c '}")
              (calm cfg Absent) (fresh 0) record_abc
              (logged INFO "Processed message: " None (fresh 0))).
    vm_compute. reflexivity.
  - apply (H4 [32; 9; 160]%N); [discriminate|reflexivity].
Defined.

End DerivedFields.

(* ================================================================== *)
(** * The sentiment field                                              *)
(* ================================================================== *)

Section Sentiment.






End Sentiment.


(* ================================================================== *)
(** * A line that is not valid JSON                                    *)
(* ================================================================== *)

Section InvalidJson.

(** A cycle whose first line with content is not valid JSON. *)
Lemma cycle_invalid_json (e : env) (w : world) (live sql : str)
  (interval : Z) (d : str) (bs : list (str * nat)) (l : str * nat)
  (rest : list (str * nat)) (err : Json.error) :
  source e (opens w) = Present d ->
  (0 <= last_position w)%Z ->
  lines (File d (Z.to_nat (last_position w)) true) = bs ++ l :: rest ->
  forallb blank bs = true ->
  blank l = false ->
  Json.loads (strip (fst l)) = inl err ->
  cycle live sql interval e w = (Raise (SystemExit 11), aborted (entered w)).
Proof.
  intros Hs Hp Hl Hbs Hb He.
  rewrite (cycle_present e sql live interval w d Hs Hp), Hl.
  rewrite (for_line_in_blanks e sql bs (l :: rest) _ _ Hbs).
  rewrite (for_line_in_invalid e sql _ l rest _ err Hb He).
  reflexivity.
Qed.

(** The claim C1 fails on the file of one valid line, one malformed
    line and one more valid line: the process exits with status 11 and
    each table has one row, where the claim has two rows and a process
    that goes on.  On a file that starts with the malformed line the
    process exits with status 11 before any row is written. *)
Lemma C1_counterexample :
  outcome (run 3 (calm cfg (Present file_good_bad_good)) (fresh 0))
  = (Some 11%Z, 1, 1)
  /\ outcome (run 3 (calm cfg (Present file_bad_good)) (fresh 0))
     = (Some 11%Z, 0, 0).
Proof. split; vm_compute; reflexivity. Qed.

(** C1, amended. In every cycle, a line with content that is not valid
    JSON is not a per-line failure: when the read loop comes to it,
    json.loads raises, the generic handler logs at error level and the
    process exits with status 11; no row is written for the line and the
    lines after it are not read.  With one valid line, one malformed
    line and one more valid line, each table has one row when the
    process exits with status 11. *)
Theorem C1_invalid_json_is_fatal :
  (forall e w live sql interval d bs l rest err,
      source e (opens w) = Present d ->
      (0 <= last_position w)%Z ->
      lines (File d (Z.to_nat (last_position w)) true) = bs ++ l :: rest ->
      forallb blank bs = true ->
      blank l = false ->
      Json.loads (strip (fst l)) = inl err ->
      forall n,
        exists w',
          while_true (S n) (cycle live sql interval) e w
          = (Raise (SystemExit 11), w')
          /\ primary w' = primary w
          /\ insights w' = insights w
          /\ log w'
             = log w
               ++ [Entry INFO "3. Read from live data file at position "
                     (Some (last_position w));
                   Entry ERROR "ERROR: Error reading from live data file: "
                     None])
  /\ (forall n,
        outcome (run (S n) (calm cfg (Present file_good_bad_good)) (fresh 0))
        = (Some 11%Z, 1, 1)).
Proof.
  split.
  - intros e w live sql interval d bs l rest err Hs Hp Hl Hbs Hb He n.
    exists (aborted (entered w)). split.
    + cbn [while_true]. unfold bind.
      now rewrite (cycle_invalid_json e w live sql interval d bs l rest err Hs Hp Hl Hbs Hb He).
    + repeat split. simpl. now rewrite <- app_assoc.
  - intros n. vm_compute. reflexivity.
Qed.

Lemma C1_invalid_json_is_fatal_witness :
  exists w',
    while_true 2 (cycle (u "live.json") (u "db.sqlite") 5)
      (calm cfg (Present file_bad_good)) (fresh 0)
    = (Raise (SystemExit 11), w')
    /\ primary w' = primary (fresh 0)
    /\ insights w' = insights (fresh 0)
    /\ log w'
       = log (fresh 0)
         ++ [Entry INFO "3. Read from live data file at position "
               (Some (last_position (fresh 0)));
             Entry ERROR "ERROR: Error reading from live data file: " None].
Proof.
  apply (proj1 C1_invalid_json_is_fatal
           (calm cfg (Present file_bad_good)) (fresh 0)
           (u "live.json") (u "db.sqlite") 5%Z file_bad_good []
           (line_bad ++ nl, 5) [(line_good ++ nl, 54)] Json.JSONDecodeError);
    try (vm_compute; reflexivity).
  simpl. lia.
Defined.

End InvalidJson.

(* ================================================================== *)
(** * The line reader                                                  *)
(* ================================================================== *)

Section LineReader.

Lemma read_lines_unterminated (tail : str) :
  forall cur n,
    Spec.unterminated tail ->
    tail <> [] \/ cur <> [] ->
    read_lines cur n tail = [(rev cur ++ tail, n + List.length tail)].
Proof.
  unfold Spec.unterminated.
  induction tail as [|c t IH]; intros cur n Hu Hne.
  - destruct Hne as [Hne|Hne]; [congruence|].
    destruct cur; [congruence|]. cbn [read_lines].
    now rewrite app_nil_r, Nat.add_0_r.
  - cbn [forallb] in Hu. apply andb_true_iff in Hu. destruct Hu as [Hc Ht].
    unfold Spec.is_terminator in Hc. apply negb_true_iff in Hc.
    apply orb_false_iff in Hc. destruct Hc as [H10 H13].
    cbn [read_lines]. rewrite H10, H13.
    rewrite (IH (c :: cur) (S n) Ht); [|right; discriminate].
    cbn [rev List.length]. rewrite <- app_assoc, Nat.add_succ_r. reflexivity.
Qed.

(** Whatever comes before it, a last segment without terminator is the
    end of the last line the reader returns. *)
Lemma read_lines_tail (k : nat) :
  forall body cur n tail,
    List.length body <= k ->
    tail <> [] ->
    Spec.unterminated tail ->
    exists ls t m,
      read_lines cur n (body ++ tail) = ls ++ [(t ++ tail, m + List.length tail)].
Proof.
  induction k as [|k IH]; intros body cur n tail Hk Hne Hu.
  - destruct body; [|simpl in Hk; lia].
    exists [], (rev cur), n. now apply read_lines_unterminated; [|left].
  - destruct body as [|c b].
    + exists [], (rev cur), n. now apply read_lines_unterminated; [|left].
    + simpl in Hk. rewrite <- app_comm_cons. cbn [read_lines].
      destruct (c =? 10)%N.
      * destruct (IH b [] 0 tail) as (ls & t & m & E); [lia|assumption..|].
        rewrite E. now exists ((rev (10%N :: cur), S n) :: ls), t, m.
      * destruct (c =? 13)%N.
        -- destruct b as [|c' b'].
           ++ destruct tail as [|c' t']; [congruence|].
              cbn [app].
              assert (H10 : (c' =? 10)%N = false).
              { unfold Spec.unterminated in Hu. cbn [forallb] in Hu.
                apply andb_true_iff in Hu. destruct Hu as [Hc _].
                unfold Spec.is_terminator in Hc. apply negb_true_iff in Hc.
                now apply orb_false_iff in Hc. }
              rewrite H10.
              destruct (IH [] [] 0 (c' :: t')) as (ls & t & m & E);
                [simpl; lia|assumption..|].
              cbn [app] in E. rewrite E.
              now exists ((rev (10%N :: cur), S n) :: ls), t, m.
           ++ rewrite <- app_comm_cons. destruct (c' =? 10)%N.
              ** destruct (IH b' [] 0 tail) as (ls & t & m & E);
                   [simpl in Hk; lia|assumption..|].
                 rewrite E.
                 now exists ((rev (10%N :: cur), S (S n)) :: ls), t, m.
              ** destruct (IH (c' :: b') [] 0 tail) as (ls & t & m & E);
                   [lia|assumption..|].
                 rewrite <- app_comm_cons in E. rewrite E.
                 now exists ((rev (10%N :: cur), S n) :: ls), t, m.
        -- apply IH; [lia|assumption..].
Qed.

(** A cycle whose first line with content is valid JSON: its message is
    handled before anything else happens. *)
Lemma cycle_valid_rows (e : env) (w : world) (live sql : str)
  (interval : Z) (d : str) (bs : list (str * nat)) (l : str * nat)
  (rest : list (str * nat)) (raw : value) :
  source e (opens w) = Present d ->
  (0 <= last_position w)%Z ->
  lines (File d (Z.to_nat (last_position w)) true) = bs ++ l :: rest ->
  forallb blank bs = true ->
  blank l = false ->
  Json.loads (strip (fst l)) = inr raw ->
  snd (cycle live sql interval e w) = aborted (handled raw sql e (entered w)).
Proof.
  intros Hs Hp Hl Hbs Hb Hr.
  rewrite (cycle_present e sql live interval w d Hs Hp), Hl.
  rewrite (for_line_in_blanks e sql bs (l :: rest) _ _ Hbs).
  rewrite (for_line_in_valid e sql _ l rest _ raw Hb Hr).
  reflexivity.
Qed.

(** The claim C2 fails on the trailing line.  With two complete lines
    and a third one cut short, the reader returns the cut line as the
    third line of the cycle, and the process exits with status 11 in
    that cycle, where the claim has the line left for the next cycle.
    With two empty lines and a valid third line that has no terminator
    yet, the third line is consumed, one row in each table. *)
Lemma C2_counterexample :
  lines (File file_two_and_cut 0 true)
  = [(line_good ++ nl, 54); (line_good2 ++ nl, 61); (line_cut, 27)]
  /\ Spec.unterminated line_cut
  /\ exit_status (fst (run 3 (calm cfg (Present file_two_and_cut)) (fresh 0)))
     = Some 11%Z
  /\ lines (File file_unterminated 0 true)
     = [(nl, 1); (nl, 1); (line_good, 53)]
  /\ Spec.unterminated line_good
  /\ rows (run 3 (calm cfg (Present file_unterminated)) (fresh 0)) = (1, 1).
Proof. repeat split; vm_compute; reflexivity. Qed.

(** C2, amended. For every snapshot of the source file, the line reader
    returns every line from the offset to the end of the snapshot, a
    trailing line without terminating newline included: that segment is
    the end of the last line returned, and when the read loop comes to
    it the line is consumed in the cycle, stripped, parsed and, if it is
    a valid message, written to both tables. *)
Theorem C2_unterminated_line_is_consumed :
  (forall d p body tail,
      skipn p d = body ++ tail ->
      tail <> [] ->
      Spec.unterminated tail ->
      exists ls t m,
        lines (File d p true) = ls ++ [(t ++ tail, m + List.length tail)])
  /\ (forall e w live sql interval d bs tail k raw p,
      source e (opens w) = Present d ->
      (0 <= last_position w)%Z ->
      lines (File d (Z.to_nat (last_position w)) true) = bs ++ [(tail, k)] ->
      Spec.unterminated tail ->
      forallb blank bs = true ->
      blank (tail, k) = false ->
      Json.loads (strip tail) = inr raw ->
      normalize raw (clock w) = inr p ->
      db_fails e (db_ops w) = false ->
      db_fails e (S (db_ops w)) = false ->
      unbindable p = false ->
      primary (snd (cycle live sql interval e w)) = primary w ++ [p]
      /\ insights (snd (cycle live sql interval e w))
         = insights w ++ [(Z.of_nat (S (List.length (insights w))), p)]).
Proof.
  split.
  - intros d p body tail Hd Hne Hu. unfold lines. cbn [pos data]. rewrite Hd.
    now apply (read_lines_tail (List.length body)).
  - intros e w live sql interval d bs tail k raw p Hs Hp Hl _ Hbs Hb Hr Hn
           H1 H2 H3.
    rewrite (cycle_valid_rows e w live sql interval d bs (tail, k) [] raw
               Hs Hp Hl Hbs Hb Hr).
    unfold handled. cbn [clock entered set_opens logged set_log]. rewrite Hn.
    destruct (written_rows e sql p
                (logged INFO "Processed message: " None (entered w)) H1 H2 H3)
      as [Hp1 Hp2].
    split; [exact Hp1|exact Hp2].
Qed.

Lemma C2_unterminated_line_is_consumed_witness :
  (exists ls t m,
      lines (File file_two_and_cut 0 true)
      = ls ++ [(t ++ line_cut, m + List.length line_cut)])
  /\ primary (snd (cycle (u "live.json") (u "db.sqlite") 5
                     (calm cfg (Present file_unterminated)) (fresh 0)))
     = primary (fresh 0) ++ [record_ab].
Proof.
  destruct C2_unterminated_line_is_consumed as [H1 H2]. split.
  - apply (H1 file_two_and_cut 0 (line_good ++ nl ++ line_good2 ++ nl) line_cut);
      [reflexivity|discriminate|reflexivity].
  - apply (H2 (calm cfg (Present file_unterminated)) (fresh 0)
              (u "live.json") (u "db.sqlite") 5%Z file_unterminated
              [(nl, 1); (nl, 1)] line_good 53 (parsed
                "{'message': 'a  b', 'author': 'C', 'sentiment': 0.61}")
              record_ab);
      try (vm_compute; reflexivity).
    simpl. lia.
Defined.

End LineReader.

(* ================================================================== *)
(** * The two writes                                                   *)
(* ================================================================== *)

Section DualWrite.



(** C9. For every record and every failure of the insert into the
    insight table, be it a failing database operation or a value sqlite3
    cannot bind, insert_insight logs the failure at error level and
    returns normally; the table and the primary table are as before, and
    the insert was one database operation: it is not tried again, the
    read loop goes on to its next statement. *)
Theorem C9_insight_failure_is_logged :
  (forall e sql p w,
      db_fails e (db_ops w) = true \/ unbindable p = true ->
      insert_insight p sql e w
      = (Ok tt,
         logged ERROR "ERROR: Failed to insert insight into DB: " None (db_op w)))
  /\ (forall e sql p w,
      fst (insert_insight p sql e w) = Ok tt
      /\ db_ops (snd (insert_insight p sql e w)) = S (db_ops w))
  /\ (forall e sql f l rest w raw p,
      blank l = false ->
      Json.loads (strip (fst l)) = inr raw ->
      normalize raw (clock w) = inr p ->
      db_fails e (S (db_ops w)) = true \/ unbindable p = true ->
      insights (snd (for_line_in f (l :: rest) sql e w)) = insights w
      /\ db_ops (snd (for_line_in f (l :: rest) sql e w)) = S (S (db_ops w))
      /\ List.last (log (snd (for_line_in f (l :: rest) sql e w)))
           (Entry INFO "" None)
         = Entry ERROR "ERROR: Failed to insert insight into DB: " None).
Proof.
  split; [|split].
  - intros e sql p w H. rewrite insert_insight_run.
    destruct H as [-> | ->]; [reflexivity|].
    now rewrite orb_true_r.
  - intros e sql p w. rewrite insert_insight_run. cbn [fst snd].
    split; [reflexivity|].
    now destruct (db_fails e (db_ops w) || unbindable p).
  - intros e sql f l rest w raw p Hb Hr Hn Hf.
    rewrite (for_line_in_valid e sql f l rest w raw Hb Hr).
    cbn [snd]. unfold handled. rewrite Hn.
    split; [|split; [now rewrite written_ops|]].
    + unfold written, write_both, bind. rewrite insert_message_run.
      rewrite insert_insight_run.
      assert (E : db_fails e (S (db_ops w)) || unbindable p = true).
      { destruct Hf as [-> | ->]; [reflexivity|apply orb_true_r]. }
      destruct (db_fails e (db_ops (logged INFO "Processed message: " None w)));
        cbn [db_ops logged set_log db_op set_db_ops set_primary];
        rewrite E; reflexivity.
    + unfold written, write_both, bind. rewrite insert_message_run.
      rewrite insert_insight_run.
      assert (E : db_fails e (S (db_ops w)) || unbindable p = true).
      { destruct Hf as [-> | ->]; [reflexivity|apply orb_true_r]. }
      destruct (db_fails e (db_ops (logged INFO "Processed message: " None w)));
        cbn [db_ops logged set_log db_op set_db_ops set_primary];
        rewrite E; cbn [snd logged log set_log]; apply last_last.
Qed.

Lemma C9_insight_failure_is_logged_witness :
  insert_insight record_ab (u "db.sqlite") (failing_at 0) (fresh 0)
  = (Ok tt,
     logged ERROR "ERROR: Failed to insert insight into DB: " None
       (db_op (fresh 0)))
  /\ insights (snd (for_line_in (File file_one 0 true) [(line_good ++ nl, 54)]
                      (u "db.sqlite") (failing_at 1) (fresh 0)))
     = insights (fresh 0).
Proof.
  destruct C9_insight_failure_is_logged as (H1 & _ & H3). split.
  - apply (H1 (failing_at 0) (u "db.sqlite") record_ab (fresh 0)).
    left. reflexivity.
  - apply (H3 (failing_at 1) (u "db.sqlite") (File file_one 0 true)
              (line_good ++ nl, 54) [] (fresh 0)
              (parsed "{'message': 'a  b', 'author': 'C', 'sentiment': 0.61}")
              record_ab); try (vm_compute; reflexivity).
    left. reflexivity.
Defined.

End DualWrite.

(* ================================================================== *)
(** * The polling loop when the file is absent                         *)
(* ================================================================== *)

Section SourceAbsent.




End SourceAbsent.

(* ================================================================== *)
(** * The log as a frame                                               *)
(* ================================================================== *)

Section LogFrame.

Lemma framed_ret {A} (a : A) : framed (ret a).
Proof. intros e w l. reflexivity. Qed.

Lemma framed_raise {A} (x : exn) : framed (@raise A x).
Proof. intros e w l. reflexivity. Qed.

Lemma framed_running {A} : framed (@running A).
Proof. intros e w l. reflexivity. Qed.

Lemma framed_bind {A B} (c : M A) (k : A -> M B) :
  framed c -> (forall a, framed (k a)) -> framed (bind c k).
Proof.
  intros Hc Hk e w l. unfold bind. rewrite Hc.
  destruct (c e w) as [[a|x|] w']; cbn [fst snd]; [apply Hk|reflexivity..].
Qed.

Lemma framed_try_except {A} (c : M A) (h : exn -> M A) :
  framed c -> (forall x, framed (h x)) -> framed (try_except c h).
Proof.
  intros Hc Hh e w l. unfold try_except. rewrite Hc.
  destruct (c e w) as [[a|x|] w']; cbn [fst snd]; try reflexivity.
  destruct (is_Exception x); [apply Hh|reflexivity].
Qed.

Lemma framed_try_except_2 {A} (c : M A) (is_E : exn -> bool) (h1 : M A)
  (h2 : exn -> M A) :
  framed c -> framed h1 -> (forall x, framed (h2 x)) ->
  framed (try_except_2 c is_E h1 h2).
Proof.
  intros Hc H1 H2 e w l. unfold try_except_2. rewrite Hc.
  destruct (c e w) as [[a|x|] w']; cbn [fst snd]; try reflexivity.
  destruct (is_E x); [apply H1|].
  destruct (is_Exception x); [apply H2|reflexivity].
Qed.

Lemma framed_logger (lv : level) (t : string) (a : option Z) :
  framed (logger lv t a).
Proof.
  intros e w l. unfold logger, modify. cbn. now rewrite app_assoc.
Qed.

Lemma framed_sys_exit {A} (code : Z) : framed (@sys_exit A code).
Proof. apply framed_raise. Qed.

Lemma framed_builtin {A} (r : builtin_error + A) : framed (builtin r).
Proof. destruct r; [apply framed_raise|apply framed_ret]. Qed.

Lemma framed_sleep (secs : Z) : framed (sleep secs).
Proof.
  intros e w l. unfold sleep. destruct (secs <? 0)%Z; reflexivity.
Qed.

Lemma framed_db_op_fails : framed db_op_fails.
Proof. intros e w l. reflexivity. Qed.

Lemma framed_set_last_position (p : Z) : framed (modify (set_last_position p)).
Proof. intros e w l. reflexivity. Qed.

Lemma framed_open_ (path : str) : framed (open_ path).
Proof.
  intros e w l. unfold open_. cbn [opens set_log].
  destruct (source e (opens w)); reflexivity.
Qed.

Lemma framed_seek (f : file) (p : Z) : framed (seek f p).
Proof.
  unfold seek. destruct (p <? 0)%Z; [apply framed_raise|apply framed_ret].
Qed.

Lemma framed_tell (f : file) : framed (tell f).
Proof.
  unfold tell. destruct (telling f); [apply framed_ret|apply framed_raise].
Qed.

Lemma framed_json_loads (s : str) : framed (json_loads s).
Proof.
  unfold json_loads. destruct (Json.loads s); [apply framed_raise|apply framed_ret].
Qed.

Lemma framed_process_message (raw : value) : framed (process_message raw).
Proof.
  intros e w l. rewrite !process_message_normalize. cbn [clock set_log].
  destruct (normalize raw (clock w)); cbn; now rewrite app_assoc.
Qed.

Lemma framed_insert_message (p : processed) (sql : str) :
  framed (insert_message p sql).
Proof.
  intros e w l. rewrite !insert_message_run. cbn [db_ops set_log].
  destruct (db_fails e (db_ops w)); cbn; [now rewrite app_assoc|reflexivity].
Qed.

Lemma framed_insert_insight (p : processed) (sql : str) :
  framed (insert_insight p sql).
Proof.
  intros e w l. rewrite !insert_insight_run. cbn [db_ops set_log].
  destruct (db_fails e (db_ops w) || unbindable p); cbn;
    now rewrite app_assoc.
Qed.

Lemma framed_init_db (sql : str) : framed (init_db sql).
Proof.
  intros e w l. unfold init_db, bind, db_op_fails. cbn [db_ops set_log].
  destruct (db_fails e (db_ops w)); reflexivity.
Qed.

Lemma framed_init_insights_db (sql : str) : framed (init_insights_db sql).
Proof.
  intros e w l.
  unfold init_insights_db, create_insights_table, try_except, bind,
    db_op_fails.
  cbn [db_ops set_log].
  destruct (db_fails e (db_ops w)); cbn; now rewrite app_assoc.
Qed.

Create HintDb framed.

#[local] Hint Resolve framed_ret framed_raise framed_running framed_logger
  framed_sys_exit
  framed_builtin framed_sleep framed_db_op_fails framed_set_last_position
  framed_open_ framed_seek framed_tell framed_json_loads
  framed_process_message framed_insert_message framed_insert_insight
  framed_init_db framed_init_insights_db : framed.

Ltac framed_step :=
  first [ apply framed_bind; [auto with framed|intros ?]
        | apply framed_try_except_2
        | solve [auto with framed] ].

Lemma framed_for_line_in (sql : str) (ls : list (str * nat)) :
  forall f, framed (for_line_in f ls sql).
Proof.
  induction ls as [|[line k] rest IH]; intros f; [apply framed_ret|].
  cbn [for_line_in]. destruct (is_empty (strip line)); [apply IH|].
  apply framed_bind; [auto with framed|intros raw].
  apply framed_bind; [auto with framed|intros r].
  apply framed_bind.
  - destruct r as [p|]; repeat framed_step.
  - intros _. repeat framed_step.
Qed.

Lemma framed_gets_last_position : framed (gets last_position).
Proof. intros e w l. reflexivity. Qed.

#[local] Hint Resolve framed_for_line_in framed_gets_last_position : framed.

Lemma framed_cycle (live sql : str) (interval : Z) :
  framed (cycle live sql interval).
Proof.
  unfold cycle.
  apply framed_try_except_2; [| |intros x]; repeat framed_step.
Qed.

Lemma framed_while_true (n : nat) (body : M unit) :
  framed body -> framed (while_true n body).
Proof.
  intros Hb. induction n as [|n IH]; [apply framed_running|].
  cbn [while_true]. apply framed_bind; [exact Hb|intros _; exact IH].
Qed.

End LogFrame.

(* ================================================================== *)
(** * The argument last_position                                       *)
(* ================================================================== *)

Section OffsetArgument.

Lemma consume_run (cycles : nat) (live sql : str) (interval lp : Z)
  (e : env) (w : world) :
  consume_messages_from_file cycles live sql interval lp e w
  = if db_fails e (db_ops w)
    then (Raise SqliteError, init_db_failed interval lp w)
    else if db_fails e (S (db_ops w))
    then (Raise SqliteError, init_insights_failed interval lp w)
    else while_true cycles (cycle live sql interval) e
           (polling_start interval lp w).
Proof.
  unfold consume_messages_from_file, init_db, init_insights_db,
    create_insights_table, try_except, logger.
  unfold bind, modify, gets, db_op_fails, raise.
  cbn [log db_exists primary insights clock opens db_ops last_position
       set_log set_db_exists set_db_ops set_last_position].
  unfold init_db_failed, init_insights_failed, polling_start, call_records,
    init_records.
  destruct (db_fails e (db_ops w)).
  - repeat rewrite <- app_assoc. reflexivity.
  - cbn [log db_exists primary insights clock opens db_ops last_position
         set_log set_db_exists set_db_ops set_last_position].
    destruct (db_fails e (S (db_ops w))).
    + cbn [is_Exception log db_exists primary insights clock opens db_ops
           last_position set_log set_db_exists set_db_ops set_last_position].
      repeat rewrite <- app_assoc. reflexivity.
    + cbn [log db_exists primary insights clock opens db_ops last_position
           set_log set_db_exists set_db_ops set_last_position].
      repeat rewrite <- app_assoc. reflexivity.
Qed.

Lemma polling_start_frame (interval lp : Z) (w : world) :
  polling_start interval lp w
  = set_log
      ((log w ++ call_records interval
        ++ [Entry INFO "   last_position=" (Some lp)] ++ init_records)
       ++ log (polling_base w))
      (polling_base w).
Proof. unfold polling_start, polling_base. cbn. now rewrite app_nil_r. Qed.

(** C10. consume_messages_from_file ignores its argument last_position:
    whatever offset is passed, the outcome, the tables and the rest of
    the world are the same, and the logs differ only in the record that
    prints the argument; when the initialisations succeed the polling
    loop starts with the offset 0, so that the first cycle reads the
    file from its beginning. *)
Theorem C10_last_position_argument_is_ignored :
  (forall cycles live sql interval lp lp' e w,
      fst (consume_messages_from_file cycles live sql interval lp e w)
      = fst (consume_messages_from_file cycles live sql interval lp' e w)
      /\ primary (snd (consume_messages_from_file cycles live sql interval lp e w))
         = primary (snd (consume_messages_from_file cycles live sql interval lp' e w))
      /\ insights (snd (consume_messages_from_file cycles live sql interval lp e w))
         = insights (snd (consume_messages_from_file cycles live sql interval lp' e w))
      /\ clock (snd (consume_messages_from_file cycles live sql interval lp e w))
         = clock (snd (consume_messages_from_file cycles live sql interval lp' e w))
      /\ opens (snd (consume_messages_from_file cycles live sql interval lp e w))
         = opens (snd (consume_messages_from_file cycles live sql interval lp' e w))
      /\ db_ops (snd (consume_messages_from_file cycles live sql interval lp e w))
         = db_ops (snd (consume_messages_from_file cycles live sql interval lp' e w))
      /\ exists pre post,
           log (snd (consume_messages_from_file cycles live sql interval lp e w))
           = pre ++ Entry INFO "   last_position=" (Some lp) :: post
           /\ log (snd (consume_messages_from_file cycles live sql interval lp' e w))
              = pre ++ Entry INFO "   last_position=" (Some lp') :: post)
  /\ (forall cycles live sql interval lp e w d,
      db_fails e (db_ops w) = false ->
      db_fails e (S (db_ops w)) = false ->
      consume_messages_from_file cycles live sql interval lp e w
      = while_true cycles (cycle live sql interval) e
          (polling_start interval lp w)
      /\ last_position (polling_start interval lp w) = 0%Z
      /\ lines (File d (Z.to_nat (last_position (polling_start interval lp w)))
                  true)
         = read_lines [] 0 d).
Proof.
  split.
  - intros cycles live sql interval lp lp' e w.
    rewrite !consume_run.
    destruct (db_fails e (db_ops w)).
    { repeat split.
      exists (log w ++ call_records interval),
        [Entry INFO "1. Initialize the database." None].
      cbn [snd log init_db_failed]. rewrite <- !app_assoc. split; reflexivity. }
    destruct (db_fails e (S (db_ops w))).
    { repeat split.
      exists (log w ++ call_records interval),
        [Entry INFO "1. Initialize the database." None;
         Entry ERROR "ERROR: Failed to initialize insights DB: " None].
      cbn [snd log init_insights_failed]. rewrite <- !app_assoc.
      split; reflexivity. }
    rewrite !polling_start_frame.
    rewrite !(framed_while_true cycles (cycle live sql interval)
                (framed_cycle live sql interval)).
    cbn [fst snd]. repeat split.
    exists (log w ++ call_records interval),
      (init_records
       ++ log (snd (while_true cycles (cycle live sql interval) e
                      (polling_base w)))).
    cbn [log set_log]. rewrite <- !app_assoc. split; reflexivity.
  - intros cycles live sql interval lp e w d H1 H2.
    rewrite consume_run, H1, H2. repeat split.
Qed.

Lemma C10_last_position_argument_is_ignored_witness :
  consume_messages_from_file 3 (u "live.json") (u "db.sqlite") 5 115
    (calm cfg (Present file_two_and_cut)) (fresh 0)
  = while_true 3 (cycle (u "live.json") (u "db.sqlite") 5)
      (calm cfg (Present file_two_and_cut)) (polling_start 5 115 (fresh 0))
  /\ last_position (polling_start 5 115 (fresh 0)) = 0%Z
  /\ lines (File file_two_and_cut
              (Z.to_nat (last_position (polling_start 5 115 (fresh 0)))) true)
     = read_lines [] 0 file_two_and_cut.
Proof.
  apply (proj2 C10_last_position_argument_is_ignored 3
           (u "live.json") (u "db.sqlite") 5%Z 115%Z
           (calm cfg (Present file_two_and_cut)) (fresh 0) file_two_and_cut);
    reflexivity.
Defined.

End OffsetArgument.

(* ================================================================== *)
(** * The exit status of the process                                   *)
(* ================================================================== *)

Section ExitStatus.

Ltac fields :=
  cbn [log db_exists primary insights clock opens db_ops last_position
       set_log set_db_exists set_db_ops set_last_position set_primary
       set_insights is_Exception fst snd].

Ltac run_main :=
  unfold run, main, read_config, unlink, init_db, init_insights_db,
    create_insights_table, try_except, logger, sys_exit;
  unfold bind, modify, asks, gets, db_op_fails, raise, ret;
  fields.




Lemma main_started (cycles : nat) (e : env) (w : world) (c : config) :
  settings e = Some c ->
  db_exists w = false \/ unlink_fails e = false ->
  db_fails e (db_ops w) = false ->
  db_fails e (S (db_ops w)) = false ->
  run cycles e w
  = guarded (consume_messages_from_file cycles (live_data_path c)
               (sqlite_path c) (interval_secs c) 0) e (started w).
Proof.
  intros H1 H2 H3 H4. run_main. rewrite H1. fields.
  unfold guarded, started, start_records.
  destruct (db_exists w) eqn:Hx.
  - destruct H2 as [H2|H2]; [discriminate|]. rewrite H2. fields.
    rewrite H3. fields. rewrite H4. fields.
    repeat rewrite <- app_assoc. reflexivity.
  - fields. rewrite H3. fields. rewrite H4. fields.
    repeat rewrite <- app_assoc. reflexivity.
Qed.







End ExitStatus.

(* ================================================================== *)
(** * Further properties of process_message                            *)
(* ================================================================== *)

Section ProcessMessageMore.

Lemma normalize_dict (d : list (str * value)) (now : Z) :
  normalize (VDict d) now
  = match text_of d with
    | VStr text =>
        match py_float (field d "sentiment" (VFloat lit_0_0)) with
        | inr f =>
            match py_int (field d "message_length"
                            (VInt (Z.of_nat (List.length text)))) with
            | inr z => inr (record_of d text f z now)
            | inl err => inl err
            end
        | inl err => inl err
        end
    | _ =>
        match py_float (field d "sentiment" (VFloat lit_0_0)) with
        | inr _ => inl AttributeError
        | inl err => inl err
        end
    end.
Proof.
  unfold normalize, get, and_then, text_of, field, record_of.
  destruct (py_float _) as [err|f];
    destruct (or_ _ _) as [ | b | z | x | text | l | d']; try reflexivity.
Qed.


(** X1. process_message never raises, whatever the raw message: it
    returns a dict or None, and the only thing it changes is the log,
    by one record, an INFO record with a dict and an ERROR record with
    None. *)
Theorem X1_process_message_is_contained :
  forall raw e w,
    (exists p,
        process_message raw e w
        = (Ok (Some p), logged INFO "Processed message: " None w))
    \/ process_message raw e w
       = (Ok None, logged ERROR "Error processing message: " None w).
Proof.
  intros raw e w. rewrite process_message_normalize.
  destruct (normalize raw (clock w)) as [err|p]; [now right|left; now exists p].
Qed.

Lemma process_message_accepts (raw : value) (e : env) (w : world)
  (p : processed) :
  fst (process_message raw e w) = Ok (Some p)
  <-> exists d text f z,
        raw = VDict d
        /\ text_of d = VStr text
        /\ py_float (field d "sentiment" (VFloat lit_0_0)) = inr f
        /\ py_int (field d "message_length"
                     (VInt (Z.of_nat (List.length text)))) = inr z
        /\ p = record_of d text f z (clock w).
Proof.
  rewrite process_message_normalize. split.
  - destruct raw as [ | b | z | x | s | l | d]; try discriminate.
    rewrite normalize_dict.
    destruct (text_of d) as [ | b | z | x | text | l | d'] eqn:Ht;
      destruct (py_float _) as [err|f] eqn:Hf; try discriminate.
    destruct (py_int _) as [err|z] eqn:Hz; [discriminate|].
    cbn [fst]. intros [= <-]. now exists d, text, f, z.
  - intros (d & text & f & z & -> & Ht & Hf & Hz & ->).
    rewrite normalize_dict, Ht, Hf, Hz. reflexivity.
Qed.

(** What process_message returns for the items of a dict. *)
Lemma process_message_record (d : list (str * value)) (e : env)
  (w w' : world) (p : processed) :
  process_message (VDict d) e w = (Ok (Some p), w') ->
  exists text f z,
    text_of d = VStr text
    /\ py_float (field d "sentiment" (VFloat lit_0_0)) = inr f
    /\ py_int (field d "message_length"
                 (VInt (Z.of_nat (List.length text)))) = inr z
    /\ p = record_of d text f z (clock w).
Proof.
  intros H.
  assert (G : fst (process_message (VDict d) e w) = Ok (Some p))
    by now rewrite H.
  apply process_message_accepts in G.
  destruct G as (d' & text & f & z & [= <-] & G). now exists text, f, z.
Qed.



(** X3. A message that is missing or has no truth value (null, false,
    0, 0.0, an empty string, list or dict) is taken as the empty text:
    the dict has the message "" and the word count 0, and the length 0
    when no message_length is given. *)
Theorem X3_message_without_truth_value_is_empty :
  (forall d e w w' p,
      truthy (field d "message" (VStr [])) = false ->
      process_message (VDict d) e w = (Ok (Some p), w') ->
      message p = VStr [] /\ word_count p = 0%Z)
  /\ (forall d e w w' p,
      truthy (field d "message" (VStr [])) = false ->
      dict_find d (u "message_length") = None ->
      process_message (VDict d) e w = (Ok (Some p), w') ->
      message_length p = 0%Z).
Proof.
  split.
  - intros d e w w' p Hm H.
    destruct (process_message_record d e w w' p H)
      as (text & f & z & Ht & _ & Hz & ->).
    unfold text_of, or_ in Ht. rewrite Hm in Ht. injection Ht as <-.
    split; reflexivity.
  - intros d e w w' p Hm Hl H.
    destruct (process_message_record d e w w' p H)
      as (text & f & z & Ht & _ & Hz & ->).
    unfold text_of, or_ in Ht. rewrite Hm in Ht. injection Ht as <-.
    unfold field in Hz. rewrite Hl in Hz. cbn in Hz. now injection Hz as <-.
Qed.

Lemma X3_message_without_truth_value_is_empty_witness :
  (message record_empty = VStr [] /\ word_count record_empty = 0%Z)
  /\ message_length record_empty = 0%Z.
Proof.
  destruct X3_message_without_truth_value_is_empty as [H1 H2]. split.
  - apply (H1 [(u "message", VInt 0)] (calm cfg Absent) (fresh 0)
              (logged INFO "Processed message: " None (fresh 0)) record_empty);
      reflexivity.
  - apply (H2 [] (calm cfg Absent) (fresh 0)
              (logged INFO "Processed message: " None (fresh 0)) record_empty);
      reflexivity.
Defined.



End ProcessMessageMore.

(* ================================================================== *)
(** * Further properties of the derived fields                         *)
(* ================================================================== *)

Section DerivedFieldsMore.

Ltac order_cases m ma mb e ea eb :=
  change (Pos.compare_cont Eq m ma) with (m ?= ma)%positive;
  change (Pos.compare_cont Eq ma mb) with (ma ?= mb)%positive;
  change (Pos.compare_cont Eq m mb) with (m ?= mb)%positive;
  destruct (Z.compare_spec e ea);
  destruct (Z.compare_spec ea eb);
  destruct (Z.compare_spec e eb);
  try lia; try (intros; discriminate); try (intros; reflexivity);
  destruct (Pos.compare_spec m ma);
  destruct (Pos.compare_spec ma mb);
  destruct (Pos.compare_spec m mb);
  try lia; try (intros; discriminate); try (intros; reflexivity).

(** Above a positive number, and anything not below that. *)
Lemma float_gt_le_trans (a b : float) (m : positive) (e : Z) :
  float_gt a (S754_finite false m e) = true ->
  float_ge b a = true ->
  float_gt b (S754_finite false m e) = true.
Proof.
  unfold float_gt, float_ge, SFltb, SFleb.
  destruct a as [[]|[]| |[] ma ea], b as [[]|[]| |[] mb eb]; simpl;
    try (intros; discriminate); try (intros; reflexivity).
  order_cases m ma mb e ea eb.
Qed.

Lemma float_ge_le_trans (a b : float) (m : positive) (e : Z) :
  float_ge a (S754_finite false m e) = true ->
  float_ge b a = true ->
  float_ge b (S754_finite false m e) = true.
Proof.
  unfold float_ge, SFleb.
  destruct a as [[]|[]| |[] ma ea], b as [[]|[]| |[] mb eb]; simpl;
    try (intros; discriminate); try (intros; reflexivity).
  order_cases m ma mb e ea eb.
Qed.

(** X5. The label is one of high, medium and low for every float, NaN
    and the infinities included, and it follows the order of the
    sentiments: when a is at most b, a high label of a gives a high
    label of b and a low label of b gives a low label of a.  NaN, which
    compares with nothing, is labelled low. *)
Theorem X5_label_is_monotone :
  (forall s, label_of s = u "high" \/ label_of s = u "medium"
             \/ label_of s = u "low")
  /\ (forall a b,
      float_ge b a = true ->
      (label_of a = u "high" -> label_of b = u "high")
      /\ (label_of b = u "low" -> label_of a = u "low"))
  /\ label_of S754_nan = u "low"
  /\ label_of (S754_infinity false) = u "high"
  /\ label_of (S754_infinity true) = u "low".
Proof.
  split; [|split; [|repeat split]].
  - intros s. unfold label_of.
    destruct (float_gt s lit_0_6); [now left|].
    destruct (float_ge s lit_0_4); [right; now left|right; now right].
  - intros a b Hab. unfold label_of.
    destruct (float_gt a lit_0_6) eqn:Ha6.
    + rewrite lit_0_6_value in *.
      rewrite (float_gt_le_trans a b _ _ Ha6 Hab). split; [reflexivity|].
      intros H. discriminate H.
    + destruct (float_ge a lit_0_4) eqn:Ha4.
      * split; [intros H; discriminate H|].
        destruct (float_gt b lit_0_6); [intros H; discriminate H|].
        rewrite lit_0_4_value in *.
        rewrite (float_ge_le_trans a b _ _ Ha4 Hab). intros H. discriminate H.
      * split; [intros H; discriminate H|reflexivity].
Qed.

Lemma X5_label_is_monotone_witness :
  (label_of (dec_to_float false 7 (-1)) = u "high" ->
   label_of (dec_to_float false 9 (-1)) = u "high")
  /\ (label_of (dec_to_float false 9 (-1)) = u "low" ->
      label_of (dec_to_float false 7 (-1)) = u "low").
Proof.
  apply (proj1 (proj2 X5_label_is_monotone)
           (dec_to_float false 7 (-1)) (dec_to_float false 9 (-1))).
  vm_compute. reflexivity.
Defined.

Lemma token_starts_bound (s : str) :
  forall b,
    2 * Spec.token_starts b s <= List.length s + (if b then 1 else 0).
Proof.
  induction s as [|c s' IH]; intros b; cbn [Spec.token_starts List.length].
  - destruct b; lia.
  - specialize (IH (isspace c)).
    destruct (isspace c), b; cbn [negb andb] in *; lia.
Qed.

Lemma token_starts_zero (s : str) :
  Spec.token_starts true s = 0 -> forallb isspace s = true.
Proof.
  induction s as [|c s' IH]; [reflexivity|].
  cbn [Spec.token_starts forallb].
  destruct (isspace c); cbn [negb andb]; [intros H; now apply IH|lia].
Qed.

(** X6. The word count of a dict is bounded by its text: two words need
    a character between them, so twice the count is at most the length
    of the text plus one; the count is 0 exactly when the text has
    nothing but whitespace; and when the raw message gives no
    message_length, the word count is at most the message_length. *)
Theorem X6_word_count_bounds :
  (forall d e w w' p,
      process_message (VDict d) e w = (Ok (Some p), w') ->
      exists text,
        message p = VStr text
        /\ (2 * word_count p <= Z.of_nat (List.length text) + 1)%Z
        /\ (word_count p = 0%Z <-> forallb isspace text = true))
  /\ (forall d e w w' p,
      dict_find d (u "message_length") = None ->
      process_message (VDict d) e w = (Ok (Some p), w') ->
      (0 <= word_count p <= message_length p)%Z).
Proof.
  split.
  - intros d e w w' p H.
    destruct (process_message_record d e w w' p H)
      as (text & f & z & Ht & _ & Hz & ->).
    exists text. cbn [message word_count record_of]. rewrite split_length.
    pose proof (token_starts_bound text true) as Hb. cbn iota in Hb.
    unfold Spec.token_count. split; [reflexivity|split; [lia|]].
    split.
    + intros H0. apply token_starts_zero. lia.
    + intros Hs. now rewrite (token_starts_spaces text true Hs).
  - intros d e w w' p Hl H.
    destruct (process_message_record d e w w' p H)
      as (text & f & z & Ht & _ & Hz & ->).
    unfold field in Hz. rewrite Hl in Hz. cbn in Hz. injection Hz as <-.
    cbn [message_length word_count record_of]. rewrite split_length.
    pose proof (token_starts_bound text true) as Hb. cbn iota in Hb.
    unfold Spec.token_count. lia.
Qed.

Lemma X6_word_count_bounds_witness :
  (exists text,
      message record_declared = VStr text
      /\ (2 * word_count record_declared <= Z.of_nat (List.length text) + 1)%Z
      /\ (word_count record_declared = 0%Z <-> forallb isspace text = true))
  /\ (0 <= word_count record_listed <= message_length record_listed)%Z.
Proof.
  destruct X6_word_count_bounds as [H1 H2]. split.
  - apply (H1 [(u "message", VStr (u "hi there")); (u "message_length", VInt 42)]
              (calm cfg Absent) (fresh 0)
              (logged INFO "Processed message: " None (fresh 0))
              record_declared); reflexivity.
  - apply (H2 [(u "message", VStr (u "hi")); (u "author", VList [VStr (u "A")])]
              (calm cfg Absent) (fresh 0)
              (logged INFO "Processed message: " None (fresh 0))
              record_listed); reflexivity.
Defined.

End DerivedFieldsMore.

(* ================================================================== *)
(** * Further properties of the two writes                             *)
(* ================================================================== *)

Section WritesMore.

Lemma label_of_plain (f : float) : existsb is_surrogate (label_of f) = false.
Proof.
  unfold label_of. destruct (float_gt f lit_0_6); [reflexivity|].
  destruct (float_ge f lit_0_4); reflexivity.
Qed.

Lemma bind_error_plain (v : value) :
  bind_error v = None <-> plain v = true.
Proof.
  destruct v; cbn [bind_error plain]; try (split; reflexivity);
    try (split; discriminate).
  - unfold int64. destruct (_ && _)%bool; split; (reflexivity || discriminate).
  - destruct (existsb is_surrogate s); split; (reflexivity || discriminate).
Qed.

(** The row of a dict of process_message is bound when its text, the
    four values taken from the raw message and its two ints are. *)
Lemma unbindable_record (d : list (str * value)) (text : str) (f : float)
  (z now : Z) :
  unbindable (record_of d text f z now) = false
  <-> plain (VStr text) = true
      /\ plain (field d "author" VNone) = true
      /\ plain (field d "timestamp" VNone) = true
      /\ plain (field d "category" VNone) = true
      /\ plain (field d "keyword_mentioned" VNone) = true
      /\ int64 z = true
      /\ int64 (Z.of_nat (List.length (split text))) = true.
Proof.
  unfold unbindable, record_of, insight_params.
  cbn [message author timestamp category sentiment sentiment_label
       keyword_mentioned message_length word_count processed_at first_error].
  rewrite <- !bind_error_plain.
  change (bind_error (VFloat f)) with (@None exn).
  assert (Hl : bind_error (VStr (label_of f)) = None)
    by (cbn [bind_error]; now rewrite label_of_plain).
  rewrite Hl.
  change (bind_error (VStr [])) with (@None exn).
  change (int64 z = true) with (plain (VInt z) = true).
  change (int64 (Z.of_nat (List.length (split text))) = true)
    with (plain (VInt (Z.of_nat (List.length (split text)))) = true).
  rewrite <- !bind_error_plain.
  destruct (bind_error (VStr text)); [split; [discriminate|intros [H _]; discriminate H]|].
  destruct (bind_error (field d "author" VNone));
    [split; [discriminate|intros (_ & H & _); discriminate H]|].
  destruct (bind_error (field d "timestamp" VNone));
    [split; [discriminate|intros (_ & _ & H & _); discriminate H]|].
  destruct (bind_error (field d "category" VNone));
    [split; [discriminate|intros (_ & _ & _ & H & _); discriminate H]|].
  destruct (bind_error (field d "keyword_mentioned" VNone));
    [split; [discriminate|intros (_ & _ & _ & _ & H & _); discriminate H]|].
  destruct (bind_error (VInt z));
    [split; [discriminate|intros (_ & _ & _ & _ & _ & H & _); discriminate H]|].
  destruct (bind_error (VInt (Z.of_nat (List.length (split text)))));
    [split; [discriminate|intros (_ & _ & _ & _ & _ & _ & H); discriminate H]|].
  split; [intros _; repeat split|reflexivity].
Qed.

(** X7. process_message copies author, timestamp, category and
    keyword_mentioned from the raw message without looking at them, and
    takes None for a missing one.  A raw message in which one of them
    is a JSON array or object is therefore processed, but its row can
    never be written to the insight table: insert_insight logs a
    failure for it whatever the surroundings.  When the text and these
    four values are strings that can be encoded, numbers, booleans or
    null, and the two ints fit 64 bits, the row is written as soon as
    the database operation succeeds, with the next id. *)
Theorem X7_raw_values_reach_the_insert :
  (forall d e w w' p,
      process_message (VDict d) e w = (Ok (Some p), w') ->
      author p = field d "author" VNone
      /\ timestamp p = field d "timestamp" VNone
      /\ category p = field d "category" VNone
      /\ keyword_mentioned p = field d "keyword_mentioned" VNone)
  /\ (forall d e w w' p k,
      process_message (VDict d) e w = (Ok (Some p), w') ->
      In k ["author"; "timestamp"; "category"; "keyword_mentioned"] ->
      plain (field d k VNone) = false ->
      forall sql e' w0,
        insert_insight p sql e' w0
        = (Ok tt,
           logged ERROR "ERROR: Failed to insert insight into DB: " None
             (db_op w0)))
  /\ (forall d e w w' p text sql e' w0,
      process_message (VDict d) e w = (Ok (Some p), w') ->
      message p = VStr text ->
      plain (VStr text) = true ->
      plain (field d "author" VNone) = true ->
      plain (field d "timestamp" VNone) = true ->
      plain (field d "category" VNone) = true ->
      plain (field d "keyword_mentioned" VNone) = true ->
      int64 (message_length p) = true ->
      int64 (word_count p) = true ->
      db_fails e' (db_ops w0) = false ->
      insights (snd (insert_insight p sql e' w0))
      = insights w0 ++ [(Z.of_nat (S (List.length (insights w0))), p)]).
Proof.
  split; [|split].
  - intros d e w w' p H.
    destruct (process_message_record d e w w' p H) as (text & f & z & _ & _ & _ & ->).
    repeat split.
  - intros d e w w' p k H Hk Hp sql e' w0.
    destruct (process_message_record d e w w' p H) as (text & f & z & _ & _ & _ & ->).
    rewrite insert_insight_run.
    assert (Hu : unbindable (record_of d text f z (clock w)) = true).
    { destruct (unbindable (record_of d text f z (clock w))) eqn:E; [reflexivity|].
      apply unbindable_record in E.
      destruct E as (_ & E1 & E2 & E3 & E4 & _).
      cbn [In] in Hk.
      destruct Hk as [<-|[<-|[<-|[<-|[]]]]]; congruence. }
    rewrite Hu, orb_true_r. reflexivity.
  - intros d e w w' p text sql e' w0 H Hm P0 P1 P2 P3 P4 I1 I2 Hf.
    destruct (process_message_record d e w w' p H)
      as (text' & f & z & _ & _ & _ & ->).
    cbn [message record_of] in Hm. injection Hm as ->.
    rewrite insert_insight_run, Hf.
    assert (Hu : unbindable (record_of d text f z (clock w)) = false).
    { apply unbindable_record. repeat split; assumption. }
    rewrite Hu. reflexivity.
Qed.

Lemma X7_raw_values_reach_the_insert_witness :
  (author record_listed = field [(u "message", VStr (u "hi"));
                                 (u "author", VList [VStr (u "A")])]
                            "author" VNone
   /\ timestamp record_listed
      = field [(u "message", VStr (u "hi")); (u "author", VList [VStr (u "A")])]
          "timestamp" VNone
   /\ category record_listed
      = field [(u "message", VStr (u "hi")); (u "author", VList [VStr (u "A")])]
          "category" VNone
   /\ keyword_mentioned record_listed
      = field [(u "message", VStr (u "hi")); (u "author", VList [VStr (u "A")])]
          "keyword_mentioned" VNone)
  /\ insert_insight record_listed (u "db.sqlite") (calm cfg Absent) (fresh 0)
     = (Ok tt,
        logged ERROR "ERROR: Failed to insert insight into DB: " None
          (db_op (fresh 0)))
  /\ insights (snd (insert_insight record_declared (u "db.sqlite")
                      (calm cfg Absent) (fresh 0)))
     = insights (fresh 0)
       ++ [(Z.of_nat (S (List.length (insights (fresh 0)))), record_declared)].
Proof.
  destruct X7_raw_values_reach_the_insert as (H1 & H2 & H3).
  split; [|split].
  - apply (H1 _ (calm cfg Absent) (fresh 0)
              (logged INFO "Processed message: " None (fresh 0))).
    reflexivity.
  - apply (H2 [(u "message", VStr (u "hi")); (u "author", VList [VStr (u "A")])]
              (calm cfg Absent) (fresh 0)
              (logged INFO "Processed message: " None (fresh 0))
              record_listed "author");
      [reflexivity|simpl; tauto|reflexivity].
  - apply (H3 [(u "message", VStr (u "hi there")); (u "message_length", VInt 42)]
              (calm cfg Absent) (fresh 0)
              (logged INFO "Processed message: " None (fresh 0))
              record_declared (u "hi there")); reflexivity.
Defined.

End WritesMore.

(* ================================================================== *)
(** * Further properties of the read loop                              *)
(* ================================================================== *)

Section ReadLoopMore.

Lemma lstrip_spaces (ws s : str) :
  forallb isspace ws = true -> lstrip (ws ++ s) = lstrip s.
Proof.
  induction ws as [|c ws' IH]; intros H; [reflexivity|].
  cbn [forallb] in H. apply andb_true_iff in H. destruct H as [Hc Hw].
  cbn [app lstrip]. rewrite Hc. now apply IH.
Qed.

Lemma forallb_rev {A} (f : A -> bool) (l : list A) :
  forallb f l = true -> forallb f (rev l) = true.
Proof.
  rewrite !forallb_forall. intros H x Hx. apply H. now apply in_rev.
Qed.

Lemma rstrip_spaces (s ws : str) :
  forallb isspace ws = true -> rstrip (s ++ ws) = rstrip s.
Proof.
  intros H. unfold rstrip. rewrite rev_app_distr.
  now rewrite (lstrip_spaces (rev ws) (rev s) (forallb_rev isspace ws H)).
Qed.

Lemma rstrip_lstrip_spaces (s ws : str) :
  forallb isspace ws = true ->
  rstrip (lstrip (s ++ ws)) = rstrip (lstrip s).
Proof.
  intros H. induction s as [|c s' IH].
  - cbn [app lstrip]. rewrite <- (app_nil_r ws).
    now rewrite (lstrip_spaces ws [] H).
  - cbn [app lstrip]. destruct (isspace c); [exact IH|].
    now rewrite app_comm_cons, rstrip_spaces.
Qed.

(** Whitespace around a text does not change what strip() returns. *)
Lemma strip_padded (ws1 s ws2 : str) :
  forallb isspace ws1 = true ->
  forallb isspace ws2 = true ->
  strip (ws1 ++ s ++ ws2) = strip s.
Proof.
  intros H1 H2. unfold strip. rewrite (lstrip_spaces ws1 _ H1).
  now apply rstrip_lstrip_spaces.
Qed.












(** X9. Only the stripped line counts: a line and the same line with
    whitespace before and after it (blanks, tabs, a carriage return, a
    no-break space) are handled alike by the read loop, with the same
    outcome and the same world. *)
Theorem X9_padding_is_ignored :
  forall ws1 ws2 s k f rest sql e w,
    forallb isspace ws1 = true ->
    forallb isspace ws2 = true ->
    for_line_in f ((ws1 ++ s ++ ws2, k) :: rest) sql e w
    = for_line_in f ((s, k) :: rest) sql e w.
Proof.
  intros ws1 ws2 s k f rest sql e w H1 H2. cbn [for_line_in].
  now rewrite (strip_padded ws1 s ws2 H1 H2).
Qed.

Lemma X9_padding_is_ignored_witness :
  for_line_in (File file_one 0 true)
    (([32; 160]%N ++ line_good ++ [13; 10]%N, 54) :: nil) (u "db.sqlite")
    (calm cfg Absent) (fresh 0)
  = for_line_in (File file_one 0 true) ((line_good, 54) :: nil) (u "db.sqlite")
      (calm cfg Absent) (fresh 0).
Proof.
  apply (X9_padding_is_ignored [32; 160]%N [13; 10]%N line_good 54
           (File file_one 0 true) nil (u "db.sqlite") (calm cfg Absent)
           (fresh 0)); reflexivity.
Defined.

End ReadLoopMore.

(* ================================================================== *)
(** * Further properties of the polling loop                           *)
(* ================================================================== *)

Section PollingMore.

Lemma one_more_refl (w : world) : one_more w w.
Proof.
  split; exists []; (split; [now rewrite app_nil_r|cbn; lia]).
Qed.

Lemma one_more_rows (w w' : world) :
  primary w' = primary w -> insights w' = insights w -> one_more w w'.
Proof. unfold one_more. intros -> ->. apply one_more_refl. Qed.

Ltac same_rows :=
  split; [reflexivity|]; split; [reflexivity|];
  split; [apply one_more_rows; reflexivity|].

Lemma one_more_same (w w1 w2 : world) :
  primary w1 = primary w -> insights w1 = insights w ->
  one_more w1 w2 -> one_more w w2.
Proof. unfold one_more. now intros -> ->. Qed.

Lemma written_one_more (p : processed) (sql : str) (e : env) (w : world) :
  one_more w (written p sql e w)
  /\ last_position (written p sql e w) = last_position w
  /\ opens (written p sql e w) = opens w.
Proof.
  unfold written, write_both, bind. rewrite insert_message_run.
  rewrite insert_insight_run. unfold one_more.
  destruct (db_fails e (db_ops w));
    cbn [db_ops logged set_log db_op set_db_ops set_primary];
    destruct (db_fails e (S (db_ops w)) || unbindable p);
    cbn [snd primary insights last_position opens logged set_log db_op
         set_db_ops set_primary set_insights set_db_exists];
    repeat split;
    first [ exists []; split; [now rewrite app_nil_r|cbn; lia]
          | eexists; split; [reflexivity|cbn; lia] ].
Qed.

Lemma handled_one_more (raw : value) (sql : str) (e : env) (w : world) :
  one_more w (handled raw sql e w)
  /\ last_position (handled raw sql e w) = last_position w
  /\ opens (handled raw sql e w) = opens w.
Proof.
  unfold handled. destruct (normalize raw (clock w)) as [err|p].
  - split; [|split; reflexivity].
    apply one_more_rows; reflexivity.
  - destruct (written_one_more p sql e (logged INFO "Processed message: " None w))
      as (H1 & H2 & H3).
    split; [|split; assumption].
    now apply (one_more_same w (logged INFO "Processed message: " None w)).
Qed.

(** The read loop ends in one of three ways: at the end of a file of
    blank lines, on a line that is not valid JSON, or on the offset
    update after a line that is. *)
Lemma for_line_in_cases (e : env) (sql : str) (ls : list (str * nat)) :
  forall f w,
    for_line_in f ls sql e w = (Ok tt, w)
    \/ (exists err, for_line_in f ls sql e w = (Raise (JsonError err), w))
    \/ (exists raw,
          for_line_in f ls sql e w = (Raise OSError, handled raw sql e w)).
Proof.
  induction ls as [|l rest IH]; intros f w; [now left|].
  destruct (blank l) eqn:Hb.
  - rewrite (for_line_in_blank e sql f l rest w Hb). apply IH.
  - destruct (Json.loads (strip (fst l))) as [err|raw] eqn:Hl.
    + right. left. exists err. exact (for_line_in_invalid e sql f l rest w err Hb Hl).
    + right. right. exists raw. exact (for_line_in_valid e sql f l rest w raw Hb Hl).
Qed.

(** A cycle started with a negative offset: seek() refuses it. *)
Lemma cycle_negative_offset (e : env) (w : world) (live sql : str)
  (interval : Z) (d : str) :
  source e (opens w) = Present d ->
  (last_position w < 0)%Z ->
  cycle live sql interval e w = (Raise (SystemExit 11), aborted (entered w)).
Proof.
  intros Hs Hp. unfold cycle, try_except_2.
  unfold bind at 1. unfold gets at 1.
  unfold bind at 1. unfold logger at 1, modify at 1.
  unfold bind at 1. unfold open_ at 1. cbn [opens set_log].
  rewrite Hs.
  unfold bind at 1. unfold gets at 1. cbn [last_position set_opens set_log].
  unfold bind at 1. unfold seek at 1.
  destruct (Z.ltb_spec (last_position w) 0) as [_|Hn]; [reflexivity|lia].
Qed.

(** A cycle that does not find the file, with a negative interval:
    sleep() raises in the handler, and nothing catches it there. *)
Lemma cycle_absent_negative (e : env) (w : world) (live sql : str)
  (interval : Z) :
  source e (opens w) = Absent ->
  (interval < 0)%Z ->
  cycle live sql interval e w
  = (Raise (Builtin ValueError),
     logged ERROR "ERROR: Live data file not found at " None (entered w)).
Proof.
  intros Hs Hi. unfold cycle, try_except_2.
  unfold bind at 1. unfold gets at 1.
  unfold bind at 1. unfold logger at 1, modify at 1.
  unfold bind at 1. unfold open_ at 1. cbn [opens set_log].
  rewrite Hs. cbn [is_FileNotFoundError].
  unfold bind, logger, modify, sleep.
  destruct (Z.ltb_spec interval 0) as [_|Hn]; [reflexivity|lia].
Qed.

(** What a cycle can do. *)
Lemma cycle_cases (e : env) (w : world) (live sql : str) (interval : Z) :
  last_position (snd (cycle live sql interval e w)) = last_position w
  /\ opens (snd (cycle live sql interval e w)) = S (opens w)
  /\ one_more w (snd (cycle live sql interval e w))
  /\ ((fst (cycle live sql interval e w) = Ok tt
       /\ (0 <= interval)%Z
       /\ primary (snd (cycle live sql interval e w)) = primary w
       /\ insights (snd (cycle live sql interval e w)) = insights w)
      \/ fst (cycle live sql interval e w) = Raise (SystemExit 11)
      \/ (fst (cycle live sql interval e w) = Raise (Builtin ValueError)
          /\ (interval < 0)%Z
          /\ source e (opens w) = Absent
          /\ primary (snd (cycle live sql interval e w)) = primary w
          /\ insights (snd (cycle live sql interval e w)) = insights w)).
Proof.
  destruct (source e (opens w)) as [ | |d] eqn:Hs.
  - destruct (Z.ltb_spec interval 0) as [Hi|Hi].
    + rewrite (cycle_absent_negative e w live sql interval Hs Hi).
      same_rows. right. right. now repeat split.
    + rewrite (cycle_absent e sql live interval w Hs Hi).
      same_rows. left. now repeat split.
  - rewrite (cycle_unreadable e sql live interval w Hs).
    same_rows. right. now left.
  - destruct (Z.ltb_spec (last_position w) 0) as [Hp|Hp].
    + rewrite (cycle_negative_offset e w live sql interval d Hs Hp).
      same_rows. right. now left.
    + rewrite (cycle_present e sql live interval w d Hs Hp).
      destruct (for_line_in_cases e sql
                  (lines (File d (Z.to_nat (last_position w)) true))
                  (File d (Z.to_nat (last_position w)) true) (entered w))
        as [H|[(err & H)|(raw & H)]]; rewrite H.
      * destruct (Z.ltb_spec interval 0) as [Hi|Hi]; same_rows;
          [right; now left|].
        left. now repeat split.
      * cbn [is_FileNotFoundError is_Exception].
        same_rows. right. now left.
      * cbn [is_FileNotFoundError is_Exception].
        destruct (handled_one_more raw sql e (entered w)) as (H1 & H2 & H3).
        cbn [fst snd aborted logged set_log last_position opens].
        split; [exact H2|]. split; [exact H3|]. split; [|right; now left].
        apply (one_more_same w (entered w)); [reflexivity..|].
        exact H1.
Qed.

(** What the polling loop can do. *)
Lemma while_true_cases (e : env) (live sql : str) (interval : Z) (n : nat) :
  forall w,
    last_position (snd (while_true n (cycle live sql interval) e w))
    = last_position w
    /\ one_more w (snd (while_true n (cycle live sql interval) e w))
    /\ ((fst (while_true n (cycle live sql interval) e w) = Running
         /\ primary (snd (while_true n (cycle live sql interval) e w))
            = primary w
         /\ insights (snd (while_true n (cycle live sql interval) e w))
            = insights w
         /\ opens (snd (while_true n (cycle live sql interval) e w))
            = n + opens w)
        \/ fst (while_true n (cycle live sql interval) e w)
           = Raise (SystemExit 11)
        \/ (fst (while_true n (cycle live sql interval) e w)
            = Raise (Builtin ValueError)
            /\ (interval < 0)%Z)).
Proof.
  induction n as [|n IH]; intros w.
  - cbn [while_true running fst snd]. split; [reflexivity|].
    split; [apply one_more_refl|]. left. repeat split.
  - cbn [while_true]. unfold bind.
    destruct (cycle_cases e w live sql interval) as (C1 & C2 & C3 & C4).
    destruct (cycle live sql interval e w) as [r w1]. cbn [fst snd] in *.
    destruct C4 as [(-> & _ & P & I)|[->|(-> & Hi & _)]].
    + destruct (IH w1) as (L & O & R). rewrite L, C1.
      split; [reflexivity|]. split; [now apply (one_more_same w w1)|].
      destruct R as [(R1 & R2 & R3 & R4)|[R|R]].
      * left. rewrite R1, R2, R3, R4, P, I, C2. repeat split. lia.
      * right. now left.
      * right. now right.
    + cbn [fst snd]. split; [exact C1|]. split; [exact C3|]. right. now left.
    + cbn [fst snd]. split; [exact C1|]. split; [exact C3|]. right. right.
      now split.
Qed.

(** X10. The offset never moves.  A cycle leaves last_position as it
    found it, whatever the file holds and whatever fails, and so does
    the polling loop after any number of cycles; in
    consume_messages_from_file, which sets it to 0 before the loop,
    every cycle therefore reads from position 0. *)
Theorem X10_offset_never_moves :
  (forall e w live sql interval,
      last_position (snd (cycle live sql interval e w)) = last_position w)
  /\ (forall n e w live sql interval,
      last_position (snd (while_true n (cycle live sql interval) e w))
      = last_position w)
  /\ (forall cycles live sql interval lp e w,
      db_fails e (db_ops w) = false ->
      db_fails e (S (db_ops w)) = false ->
      last_position
        (snd (consume_messages_from_file cycles live sql interval lp e w))
      = 0%Z).
Proof.
  split; [|split].
  - intros e w live sql interval.
    exact (proj1 (cycle_cases e w live sql interval)).
  - intros n e w live sql interval.
    exact (proj1 (while_true_cases e live sql interval n w)).
  - intros cycles live sql interval lp e w H1 H2.
    rewrite consume_run, H1, H2.
    now rewrite (proj1 (while_true_cases e live sql interval cycles _)).
Qed.

Lemma X10_offset_never_moves_witness :
  last_position
    (snd (consume_messages_from_file 3 (u "live.json") (u "db.sqlite") 5 115
            (calm cfg (Present file_blank)) (fresh 0)))
  = 0%Z.
Proof.
  apply (proj2 (proj2 X10_offset_never_moves) 3 (u "live.json")
           (u "db.sqlite") 5%Z 115%Z (calm cfg (Present file_blank))
           (fresh 0)); reflexivity.
Defined.

Lemma consume_cases (cycles : nat) (live sql : str) (interval lp : Z)
  (e : env) (w : world) :
  one_more w (snd (consume_messages_from_file cycles live sql interval lp e w))
  /\ ((fst (consume_messages_from_file cycles live sql interval lp e w)
       = Running
       /\ primary (snd (consume_messages_from_file cycles live sql interval
                          lp e w)) = primary w
       /\ insights (snd (consume_messages_from_file cycles live sql interval
                           lp e w)) = insights w)
      \/ fst (consume_messages_from_file cycles live sql interval lp e w)
         = Raise (SystemExit 11)
      \/ (fst (consume_messages_from_file cycles live sql interval lp e w)
          = Raise (Builtin ValueError) /\ (interval < 0)%Z)
      \/ (fst (consume_messages_from_file cycles live sql interval lp e w)
          = Raise SqliteError
          /\ opens (snd (consume_messages_from_file cycles live sql interval
                           lp e w)) = opens w)).
Proof.
  rewrite consume_run.
  destruct (db_fails e (db_ops w)).
  { split; [apply one_more_rows; reflexivity|]. right. right. right.
    now split. }
  destruct (db_fails e (S (db_ops w))).
  { split; [apply one_more_rows; reflexivity|]. right. right. right.
    now split. }
  destruct (while_true_cases e live sql interval cycles
              (polling_start interval lp w)) as (_ & O & R).
  split; [now apply (one_more_same w (polling_start interval lp w))|].
  destruct R as [(R1 & R2 & R3 & _)|[R|R]].
  - left. now rewrite R1, R2, R3.
  - right. now left.
  - right. right. now left.
Qed.

(** X11. One call of consume_messages_from_file writes at most one row
    to each table, and it keeps the rows that were there: the tables
    after the call are the tables before it with at most one row added
    at the end.  The call never returns normally; while it is still
    running, no row has been written. *)
Theorem X11_at_most_one_row_per_call :
  forall cycles live sql interval lp e w,
    one_more w (snd (consume_messages_from_file cycles live sql interval lp e w))
    /\ (forall a,
          fst (consume_messages_from_file cycles live sql interval lp e w)
          <> Ok a)
    /\ (fst (consume_messages_from_file cycles live sql interval lp e w)
        = Running ->
        primary (snd (consume_messages_from_file cycles live sql interval
                        lp e w)) = primary w
        /\ insights (snd (consume_messages_from_file cycles live sql interval
                            lp e w)) = insights w).
Proof.
  intros cycles live sql interval lp e w.
  destruct (consume_cases cycles live sql interval lp e w) as (O & R).
  split; [exact O|]. split.
  - intros a H. rewrite H in R.
    destruct R as [(R & _)|[R|[(R & _)|(R & _)]]]; discriminate R.
  - intros H. rewrite H in R.
    destruct R as [(_ & R)|[R|[(R & _)|(R & _)]]];
      [exact R|discriminate R..].
Qed.

Lemma X11_at_most_one_row_per_call_witness :
  primary (snd (consume_messages_from_file 3 (u "live.json") (u "db.sqlite")
                  5 0 never_there used)) = primary used
  /\ insights (snd (consume_messages_from_file 3 (u "live.json")
                      (u "db.sqlite") 5 0 never_there used)) = insights used.
Proof.
  apply (proj2 (proj2 (X11_at_most_one_row_per_call 3 (u "live.json")
                         (u "db.sqlite") 5%Z 0%Z never_there used))).
  reflexivity.
Defined.

End PollingMore.

(* ================================================================== *)
(** * Further properties of main and of the initialisation             *)
(* ================================================================== *)

Section ProcessMore.



(** What the last statements of main make of the outcome of the call. *)
Lemma guarded_result (body : M unit) (e : env) (w : world) :
  fst (guarded body e w)
  = match fst (body e w) with
    | Raise x =>
        if is_KeyboardInterrupt x then Ok tt
        else if is_Exception x then Ok tt else Raise x
    | r => r
    end.
Proof.
  unfold guarded, try_finally, try_except_2, logger, modify.
  destruct (body e w) as [[a|x|] w']; cbn [fst]; try reflexivity.
  destruct (is_KeyboardInterrupt x); [reflexivity|].
  destruct (is_Exception x); reflexivity.
Qed.






(** X13. A failure of an initialisation made by
    consume_messages_from_file is not a status 3: when the two
    initialisations of main succeed and one of the next two fails, main
    logs it as an unexpected error, logs the shutdown and returns, and
    the live data file is never opened. *)
Theorem X13_late_init_failure_returns :
  forall cycles e w c,
    settings e = Some c ->
    db_exists w = false \/ unlink_fails e = false ->
    db_fails e (db_ops w) = false ->
    db_fails e (S (db_ops w)) = false ->
    db_fails e (S (S (db_ops w))) = true
    \/ db_fails e (S (S (S (db_ops w)))) = true ->
    fst (run cycles e w) = Ok tt
    /\ opens (snd (run cycles e w)) = opens w
    /\ exists l,
         log (snd (run cycles e w))
         = l ++ [Entry ERROR "ERROR: Unexpected error: " None;
                 Entry INFO "TRY/FINALLY: Consumer shutting down." None].
Proof.
  intros cycles e w c H1 H2 H3 H4 H5.
  rewrite (main_started cycles e w c H1 H2 H3 H4).
  unfold guarded, try_finally, try_except_2, logger, modify.
  rewrite consume_run. cbn [db_ops started].
  destruct (db_fails e (S (S (db_ops w)))) eqn:H6.
  - cbn [is_KeyboardInterrupt is_Exception fst snd opens log set_log
         init_db_failed started].
    split; [reflexivity|]. split; [reflexivity|].
    eexists. rewrite <- app_assoc. reflexivity.
  - destruct H5 as [H5|H5]; [discriminate|]. rewrite H5.
    cbn [is_KeyboardInterrupt is_Exception fst snd opens log set_log
         init_insights_failed started].
    split; [reflexivity|]. split; [reflexivity|].
    eexists. rewrite <- app_assoc. reflexivity.
Qed.

Lemma X13_late_init_failure_returns_witness :
  fst (run 3 no_second_init (fresh 0)) = Ok tt
  /\ opens (snd (run 3 no_second_init (fresh 0))) = opens (fresh 0)
  /\ exists l,
       log (snd (run 3 no_second_init (fresh 0)))
       = l ++ [Entry ERROR "ERROR: Unexpected error: " None;
               Entry INFO "TRY/FINALLY: Consumer shutting down." None].
Proof.
  apply (X13_late_init_failure_returns 3 no_second_init (fresh 0) cfg);
    [reflexivity|left; reflexivity|reflexivity|reflexivity|left; reflexivity].
Defined.

(** X14. With a negative interval the process ends in its first cycle,
    since time.sleep refuses it: when the live data file is not there
    the error leaves the handler of the missing file and main returns;
    in every other case the error, or the one raised before, is caught
    in the loop and the process exits with status 11. *)
Theorem X14_negative_interval :
  (forall n e w c,
      starts_well e w c ->
      (interval_secs c < 0)%Z ->
      source e (opens w) = Absent ->
      fst (run (S n) e w) = Ok tt)
  /\ (forall n e w c,
      starts_well e w c ->
      (interval_secs c < 0)%Z ->
      source e (opens w) <> Absent ->
      fst (run (S n) e w) = Raise (SystemExit 11)).
Proof.
  split; intros n e w c (H1 & H2 & H3 & H4 & H5 & H6) Hi Hs;
    rewrite (main_started (S n) e w c H1 H2 H3 H4), guarded_result;
    rewrite consume_run; cbn [db_ops started]; rewrite H5, H6;
    cbn [while_true]; unfold bind.
  - rewrite (cycle_absent_negative e
               (polling_start (interval_secs c) 0 (started w))
               (live_data_path c) (sqlite_path c) (interval_secs c) Hs Hi).
    reflexivity.
  - destruct (cycle_cases e (polling_start (interval_secs c) 0 (started w))
                (live_data_path c) (sqlite_path c) (interval_secs c))
      as (_ & _ & _ & R).
    destruct (cycle _ _ _ e _) as [r w1]. cbn [fst snd] in R.
    destruct R as [(_ & Hp & _)|[->|(_ & _ & Ha & _)]].
    + lia.
    + reflexivity.
    + destruct (Hs Ha).
Qed.

Lemma X14_negative_interval_witness :
  fst (run 3 (calm cfg_negative Absent) (fresh 0)) = Ok tt
  /\ fst (run 3 (calm cfg_negative (Present file_blank)) (fresh 0))
     = Raise (SystemExit 11).
Proof.
  split.
  - apply (proj1 X14_negative_interval 2 (calm cfg_negative Absent) (fresh 0)
             cfg_negative); [|reflexivity|reflexivity].
    unfold starts_well. repeat split. left. reflexivity.
  - apply (proj2 X14_negative_interval 2
             (calm cfg_negative (Present file_blank)) (fresh 0) cfg_negative);
      [|reflexivity|discriminate].
    unfold starts_well. repeat split. left. reflexivity.
Defined.




(** X16. init_insights_db keeps the rows of both tables, whether it
    succeeds or fails; when its statement fails it logs the error and
    raises it again, unlike insert_insight, which logs the error of its
    statement and returns. *)
Theorem X16_init_insights_db_raises_again :
  (forall path e w,
      primary (snd (init_insights_db path e w)) = primary w
      /\ insights (snd (init_insights_db path e w)) = insights w)
  /\ (forall path e w,
      db_fails e (db_ops w) = true ->
      init_insights_db path e w
      = (Raise SqliteError,
         logged ERROR "ERROR: Failed to initialize insights DB: " None
           (db_op w)))
  /\ (forall p path e w,
      db_fails e (db_ops w) = true ->
      insert_insight p path e w
      = (Ok tt,
         logged ERROR "ERROR: Failed to insert insight into DB: " None
           (db_op w))).
Proof.
  split; [|split].
  - intros path e w.
    unfold init_insights_db, create_insights_table, try_except, logger.
    unfold bind, modify, db_op_fails, raise.
    destruct (db_fails e (db_ops w)); now split.
  - intros path e w H.
    unfold init_insights_db, create_insights_table, try_except, logger.
    unfold bind, modify, db_op_fails, raise. now rewrite H.
  - intros p path e w H. now rewrite insert_insight_run, H.
Qed.

Lemma X16_init_insights_db_raises_again_witness :
  init_insights_db (u "db.sqlite") no_init used
  = (Raise SqliteError,
     logged ERROR "ERROR: Failed to initialize insights DB: " None
       (db_op used)).
Proof.
  apply (proj1 (proj2 X16_init_insights_db_raises_again) (u "db.sqlite")
           no_init used).
  reflexivity.
Defined.

(** The read loop stops at its first line that is not blank. *)
Lemma for_line_in_first (e : env) (sql : str) (bs : list (str * nat))
  (l : str * nat) (rest : list (str * nat)) (f : file) (w : world) :
  forallb blank bs = true ->
  blank l = false ->
  (exists err,
      Json.loads (strip (fst l)) = inl err
      /\ for_line_in f (bs ++ l :: rest) sql e w = (Raise (JsonError err), w))
  \/ (exists raw,
        Json.loads (strip (fst l)) = inr raw
        /\ for_line_in f (bs ++ l :: rest) sql e w
           = (Raise OSError, handled raw sql e w)).
Proof.
  intros Hbs Hb. rewrite (for_line_in_blanks e sql bs (l :: rest) f w Hbs).
  destruct (Json.loads (strip (fst l))) as [err|raw] eqn:Hl.
  - left. exists err. split; [reflexivity|].
    exact (for_line_in_invalid e sql (advance f bs) l rest w err Hb Hl).
  - right. exists raw. split; [reflexivity|].
    exact (for_line_in_valid e sql (advance f bs) l rest w raw Hb Hl).
Qed.

(** X17. Only the first line that is not blank is ever looked at: the
    read loop ends on it with an exception, so its outcome and the
    world it leaves do not depend on the lines after it, and a process
    that started well and finds such a line in the live data file exits
    with status 11 in its first cycle, whether the line is valid JSON
    or not. *)
Theorem X17_first_line_ends_the_process :
  (forall bs l rest rest' f sql e w,
      forallb blank bs = true ->
      blank l = false ->
      for_line_in f (bs ++ l :: rest) sql e w
      = for_line_in f (bs ++ l :: rest') sql e w)
  /\ (forall n e w c d bs l rest,
      starts_well e w c ->
      source e (opens w) = Present d ->
      lines (File d 0 true) = bs ++ l :: rest ->
      forallb blank bs = true ->
      blank l = false ->
      fst (run (S n) e w) = Raise (SystemExit 11)).
Proof.
  split.
  - intros bs l rest rest' f sql e w Hbs Hb.
    destruct (for_line_in_first e sql bs l rest f w Hbs Hb)
      as [(err & Hl & ->)|(raw & Hl & ->)];
      destruct (for_line_in_first e sql bs l rest' f w Hbs Hb)
        as [(err' & Hl' & ->)|(raw' & Hl' & ->)];
      rewrite Hl in Hl'; try discriminate Hl'; now injection Hl' as <-.
  - intros n e w c d bs l rest (H1 & H2 & H3 & H4 & H5 & H6) Hs Hd Hbs Hb.
    rewrite (main_started (S n) e w c H1 H2 H3 H4).
    unfold guarded, try_finally, try_except_2.
    rewrite consume_run. cbn [db_ops started]. rewrite H5, H6.
    cbn [while_true]. unfold bind.
    rewrite (cycle_present e (sqlite_path c) (live_data_path c)
               (interval_secs c)
               (polling_start (interval_secs c) 0 (started w)) d Hs);
      [|cbn [last_position polling_start]; lia].
    cbn [last_position polling_start Z.to_nat]. rewrite Hd.
    destruct (for_line_in_first e (sqlite_path c) bs l rest (File d 0 true)
                (entered (polling_start (interval_secs c) 0 (started w)))
                Hbs Hb)
      as [(err & _ & R)|(raw & _ & R)];
      unfold polling_start in R |- *; cbn [last_position] in R |- *;
      rewrite R; reflexivity.
Qed.

Lemma X17_first_line_ends_the_process_witness :
  for_line_in (File file_good_bad_good 0 true)
    ([] ++ (line_good ++ nl, 54) :: [(line_bad ++ nl, 59)]) (u "db.sqlite")
    (calm cfg Absent) (fresh 0)
  = for_line_in (File file_good_bad_good 0 true)
      ([] ++ (line_good ++ nl, 54) :: []) (u "db.sqlite")
      (calm cfg Absent) (fresh 0)
  /\ fst (run 3 (calm cfg (Present file_one)) (fresh 0))
     = Raise (SystemExit 11).
Proof.
  split.
  - apply (proj1 X17_first_line_ends_the_process [] (line_good ++ nl, 54)
             [(line_bad ++ nl, 59)] [] (File file_good_bad_good 0 true)
             (u "db.sqlite") (calm cfg Absent) (fresh 0)); reflexivity.
  - apply (proj2 X17_first_line_ends_the_process 2
             (calm cfg (Present file_one)) (fresh 0) cfg file_one []
             (hd ([], 0) (lines (File file_one 0 true)))
             (tl (lines (File file_one 0 true))));
      try (vm_compute; reflexivity).
    unfold starts_well. repeat split. left. reflexivity.
Defined.

End ProcessMore.
